(** * Sepolia address monitor: a shallow embedding of [monitor-sepolia.js]

    The script replays the history of one account from an indexing API
    (Etherscan), then tails new blocks from a node.  Its collaborators are
    modelled as oracles of a [World]: the indexer answers the n-th HTTP
    request, the node answers [getBlock].  Every outward action of the
    script (HTTP request, block fetch, listener registration, console output,
    process exit) is recorded in the [trace] of the state.

    The code is written in the type [Async] of asynchronous computations: a
    tree of synchronous actions whose nodes [AwaitGet] and [AwaitBlock] are
    the two places where the script waits for input.  [exec] runs one
    computation alone, each reply arriving before anything else happens;
    [loop] is the event loop of the live phase, where the listeners of
    several deliveries are in flight together and a schedule tells which
    pending reply arrives next.

    Conventions.
    - Strings are byte strings; [toLowerCase], [BigInt] and the white space
      they skip are those of JavaScript on ASCII text.
    - A record of the indexer is kept as the JSON object the code receives
      (every field a string).  The console lines printed between two
      expressions that can raise are one output item. *)

From Stdlib Require Import String Ascii List ZArith NArith Bool Arith Lia
  Permutation.
Import ListNotations.
Local Open Scope string_scope.
Local Open Scope list_scope.

(* ---------------------------------------------------------------------- *)
(** ** Strings *)

Definition is_upper (c : ascii) : bool :=
  (65 <=? nat_of_ascii c)%nat && (nat_of_ascii c <=? 90)%nat.

Definition lower_char (c : ascii) : ascii :=
  if is_upper c then ascii_of_nat (nat_of_ascii c + 32) else c.

Fixpoint toLowerCase (s : string) : string :=
  match s with
  | EmptyString => EmptyString
  | String c r => String (lower_char c) (toLowerCase r)
  end.

(** JavaScript truthiness of a string, and [x || ''] on an optional one. *)
Definition truthy (s : string) : bool := negb (s =? "").

Definition or_empty (o : option string) : string :=
  match o with Some s => s | None => "" end.

(** Case-insensitive equality, stated on its own: the two strings have the
    same length and agree position by position up to the case of a letter. *)
Definition same_letter (a b : ascii) : Prop :=
  a = b
  \/ (is_upper a = true /\ nat_of_ascii b = nat_of_ascii a + 32)%nat
  \/ (is_upper b = true /\ nat_of_ascii a = nat_of_ascii b + 32)%nat.

Inductive ci_eq : string -> string -> Prop :=
| ci_eq_nil : ci_eq "" ""
| ci_eq_cons a b s t :
    same_letter a b -> ci_eq s t -> ci_eq (String a s) (String b t).

(** [arr.slice(-n)]: the last [n] elements, all of them when there are
    fewer. *)
Definition slice_last {A} (n : nat) (l : list A) : list A :=
  skipn (length l - n) l.

(** *** [BigInt(string)] *)

(** White space and line terminators (tab, LF, VT, FF, CR, space). *)
Definition is_space (c : ascii) : bool :=
  let n := nat_of_ascii c in
  ((9 <=? n)%nat && (n <=? 13)%nat) || (n =? 32)%nat.

Fixpoint trim_left (s : string) : string :=
  match s with
  | EmptyString => EmptyString
  | String c r => if is_space c then trim_left r else s
  end.

Fixpoint rev_string (acc s : string) : string :=
  match s with
  | EmptyString => acc
  | String c r => rev_string (String c acc) r
  end.

Definition trim (s : string) : string :=
  rev_string "" (trim_left (rev_string "" (trim_left s))).

(** The value of a digit in a base up to 16, letters in either case. *)
Definition digit (base : N) (c : ascii) : option N :=
  let n := N.of_nat (nat_of_ascii c) in
  let v :=
    if ((48 <=? n) && (n <=? 57))%N then Some (n - 48)%N
    else if ((97 <=? n) && (n <=? 102))%N then Some (n - 87)%N
    else if ((65 <=? n) && (n <=? 70))%N then Some (n - 55)%N
    else None in
  match v with
  | Some d => if (d <? base)%N then Some d else None
  | None => None
  end.

Fixpoint digits (base acc : N) (s : string) : option N :=
  match s with
  | EmptyString => Some acc
  | String c r =>
      match digit base c with
      | Some d => digits base (acc * base + d)%N r
      | None => None
      end
  end.

(** One digit at least. *)
Definition numeral (base : N) (s : string) : option N :=
  match s with
  | EmptyString => None
  | _ => digits base 0 s
  end.

(** The integer that a string denotes for [BigInt]: nothing but white space
    is 0; otherwise decimal digits with an optional sign, or a [0x], [0o],
    [0b] literal without sign, white space around it being skipped. *)
Definition StringToBigInt (s : string) : option Z :=
  let unsigned base r := option_map Z.of_N (numeral base r) in
  match trim s with
  | EmptyString => Some 0%Z
  | String "0" (String "x" r) | String "0" (String "X" r) => unsigned 16%N r
  | String "0" (String "o" r) | String "0" (String "O" r) => unsigned 8%N r
  | String "0" (String "b" r) | String "0" (String "B" r) => unsigned 2%N r
  | String "-" r => option_map (fun n => (- Z.of_N n)%Z) (numeral 10 r)
  | String "+" r => unsigned 10%N r
  | t => unsigned 10%N t
  end.

(** The message of the [SyntaxError] that [BigInt] raises. *)
Definition bigint_message (s : string) : string :=
  "Cannot convert " ++ s ++ " to a BigInt".

(* ---------------------------------------------------------------------- *)
(** ** Data *)

(** One element of the indexer's [result] array. *)
Record HistTx := mkHistTx {
  h_hash : string;
  h_blockNumber : string;
  h_timeStamp : string;
  h_from : string;
  h_to : string;
  h_value : string;
  h_input : option string;    (* normal records only *)
  h_type : option string;     (* internal records only *)
  h_traceId : option string   (* internal records only *)
}.

(** A transaction of a block, as the node holds it; [to] is null for a
    contract creation. *)
Record BlockTx := mkBlockTx {
  tx_hash : string;
  tx_from : option string;
  tx_to : option string;
  tx_value : option Z
}.

(** One element of [block.transactions].  The provider that line 3 imports
    puts the hashes of the transactions there, as strings, also when the
    block was asked for with its transactions; a string has none of the
    properties [hash], [from], [to], [value].  [Full] is an element that is
    a transaction object. *)
Inductive TxEntry :=
| Hash (h : string)
| Full (tx : BlockTx).

Definition entry_hash (e : TxEntry) : option string :=
  match e with Hash _ => None | Full tx => Some (tx_hash tx) end.

Definition entry_from (e : TxEntry) : option string :=
  match e with Hash _ => None | Full tx => tx_from tx end.

Definition entry_to (e : TxEntry) : option string :=
  match e with Hash _ => None | Full tx => tx_to tx end.

Record Block := mkBlock { transactions : option (list TxEntry) }.

Inductive Action := txlist | txlistinternal.

(** The query string of one indexer request. *)
Record Request := mkRequest {
  action : Action;
  address : string;
  startblock : Z;
  endblock : Z;
  page : string;
  offset : Z;
  sort : string;
  apikey : string
}.

(** The JSON body of an indexer answer.  [result] is the array of the two
    list actions, [None] when the field is missing or null.  An error answer
    carries a text there instead; the guard of the fetchers raises before
    [result] is read, so the text is not kept. *)
Record Data := mkData {
  status : string;
  message : string;
  result : option (list HistTx)
}.

(** [axios.get] either resolves with a body or rejects (timeout, non-2xx). *)
Inductive Reply :=
| Resolved (data : Data)
| Rejected (msg : string).

(** [http.getBlock] resolves with a block, or null, or rejects. *)
Inductive BlockReply :=
| BlockIs (b : option Block)
| BlockFails (msg : string).

(** [process.env]: a variable is a string or is not set. *)
Record Env := mkEnv {
  WS_RPC_SEPOLIA : option string;
  HTTP_RPC_SEPOLIA : option string;
  ADDRESS : option string;
  ETHERSCAN_API_KEY : option string
}.

(** Everything outside the script.  [valid_time ts] tells whether
    [new Date(Number(ts) * 1000)] is a valid date, which the runtime decides
    by a floating-point conversion of [ts]. *)
Record World := mkWorld {
  env : Env;
  etherscan : nat -> Request -> Reply;   (* answer to the n-th request *)
  node : Z -> BlockReply;
  has_websocket : bool;                  (* is [ws._websocket] defined *)
  valid_time : string -> bool
}.

(** What the subscription can deliver to the event loop. *)
Inductive SubEvent :=
| NewBlock (bn : Z)
| Closed.

Inductive Kind := Normal | Internal.

(** Console output, one item per group of lines. *)
Inductive Out :=
| MissingEnv
| FetchingNormal (addr : string)
| FoundNormal (n : nat)
| FetchingInternal (addr : string)
| FoundInternal (n : nat)
| HistHead (k : Kind) (t : HistTx)            (* the hash line *)
| HistWhere (k : Kind) (t : HistTx)           (* block and time, from, to *)
| HistValue (k : Kind) (t : HistTx) (wei : Z) (* the value line *)
| HistInput (prefix : string)
| HistType (type : string)
| LiveStart (addr : string)
| LiveNormal (bn : Z) (e : TxEntry)
| LiveInternalHead (t : HistTx)               (* up to the [To] line *)
| LiveInternalValue (t : HistTx) (wei : Z) (type : string)
                    (traceId : option string)
| InternalFetchError (msg : string)
| BlockError (msg : string)
| WsClosed
| Fatal (msg : string).

Inductive Effect :=
| Get (r : Request)          (* axios.get *)
| GetBlock (bn : Z)          (* http.getBlock(bn, true) *)
| OnBlock                    (* ws.on('block', ...) *)
| OnClose                    (* ws._websocket.on('close', ...) *)
| Print (o : Out)            (* console.log / console.error *)
| Exit (code : Z).           (* process.exit *)

(* ---------------------------------------------------------------------- *)
(** ** Asynchronous computations *)

Inductive Async (A : Type) : Type :=
| Return (a : A)
| Raise (msg : string)
| Halt (code : Z)                                  (* process.exit(code) *)
| Do (e : Effect) (k : Async A)                    (* a synchronous action *)
| AwaitGet (r : Request) (k : Reply -> Async A)    (* await axios.get *)
| AwaitBlock (bn : Z) (k : BlockReply -> Async A). (* await http.getBlock *)
Arguments Return {A} a.
Arguments Raise {A} msg.
Arguments Halt {A} code.
Arguments Do {A} e k.
Arguments AwaitGet {A} r k.
Arguments AwaitBlock {A} bn k.

Fixpoint bind {A B} (m : Async A) (f : A -> Async B) : Async B :=
  match m with
  | Return a => f a
  | Raise e => Raise e
  | Halt c => Halt c
  | Do e k => Do e (bind k f)
  | AwaitGet r k => AwaitGet r (fun x => bind (k x) f)
  | AwaitBlock bn k => AwaitBlock bn (fun x => bind (k x) f)
  end.

(** [try { m } catch (e) { h(e) }]. *)
Fixpoint try_catch {A} (m : Async A) (h : string -> Async A) : Async A :=
  match m with
  | Return a => Return a
  | Raise e => h e
  | Halt c => Halt c
  | Do e k => Do e (try_catch k h)
  | AwaitGet r k => AwaitGet r (fun x => try_catch (k x) h)
  | AwaitBlock bn k => AwaitBlock bn (fun x => try_catch (k x) h)
  end.

Declare Scope js_scope.
Delimit Scope js_scope with js.
Notation "x <- m ;; k" := (bind m (fun x => k))
  (at level 61, m at next level, right associativity) : js_scope.
Notation "m ;; k" := (bind m (fun _ => k))
  (at level 61, right associativity) : js_scope.
Local Open Scope js_scope.

Definition print (o : Out) : Async unit := Do (Print o) (Return tt).

(** [arr.forEach(f)] and [for (const x of arr) f(x)]. *)
Fixpoint forEach {A} (l : list A) (f : A -> Async unit) : Async unit :=
  match l with
  | [] => Return tt
  | x :: r => f x ;; forEach r f
  end.

(** [BigInt(v)] on a string. *)
Definition BigInt (v : string) : Async Z :=
  match StringToBigInt v with
  | Some z => Return z
  | None => Raise (bigint_message v)
  end.

(* ---------------------------------------------------------------------- *)
(** ** State *)

Record St := mkSt {
  calls : nat;                 (* requests sent to the indexer so far *)
  trace : list Effect;         (* oldest first *)
  block_listener : bool;
  close_listener : bool;
  exited : option Z
}.

Definition init : St := mkSt 0 [] false false None.

Definition record (es : list Effect) (s : St) : St :=
  mkSt (calls s) (trace s ++ es) (block_listener s) (close_listener s)
       (exited s).

(** The state once request [r] has gone out. *)
Definition sent (r : Request) (s : St) : St :=
  mkSt (S (calls s)) (trace s ++ [Get r]) (block_listener s)
       (close_listener s) (exited s).

(** The state once the process has exited. *)
Definition halted (code : Z) (s : St) : St :=
  mkSt (calls s) (trace s ++ [Exit code]) (block_listener s)
       (close_listener s) (Some code).

(** A synchronous action: it is traced, and registering a listener is
    remembered. *)
Definition perform (e : Effect) (s : St) : St :=
  mkSt (calls s) (trace s ++ [e])
       (match e with OnBlock => true | _ => block_listener s end)
       (match e with OnClose => true | _ => close_listener s end)
       (exited s).

Inductive Res (A : Type) :=
| Ret (a : A)
| Throw (msg : string)
| Halted.
Arguments Ret {A} a.
Arguments Throw {A} msg.
Arguments Halted {A}.

(** Where the synchronous part of a computation stops: at its end, or at a
    wait, with the rest of the computation. *)
Inductive Sync (A : Type) :=
| Finished (r : Res A) (s : St)
| Suspended (s : St) (rest : Async A).
Arguments Finished {A} r s.
Arguments Suspended {A} s rest.

(** The event loop of the live phase: the state and the listeners that wait
    for a reply, oldest first. *)
Record Loop := mkLoop {
  st : St;
  pending : list (Async unit)
}.

(** The moves of the environment: the subscription delivers an event, or
    the reply that the [i]-th waiting listener awaits arrives. *)
Inductive Step :=
| Deliver (ev : SubEvent)
| Settle (i : nat).

Definition remove_nth {A} (i : nat) (l : list A) : list A :=
  firstn i l ++ skipn (S i) l.

(* ---------------------------------------------------------------------- *)
(** ** The script *)

Section Script.

Variable W : World.

Definition WS_URL : option string := WS_RPC_SEPOLIA (env W).
Definition HTTP_URL : option string := HTTP_RPC_SEPOLIA (env W).
Definition WATCH : string := toLowerCase (or_empty (ADDRESS (env W))).
Definition ETHERSCAN_KEY : option string := ETHERSCAN_API_KEY (env W).

(** [!x] on an environment variable. *)
Definition unset (o : option string) : bool := negb (truthy (or_empty o)).

Definition config_missing : bool :=
  unset WS_URL || unset HTTP_URL || negb (truthy WATCH) || unset ETHERSCAN_KEY.

(** [await axios.get(url)], then [data] of the response. *)
Definition axios_get (r : Request) : Async Data :=
  AwaitGet r (fun reply =>
    match reply with
    | Resolved d => Return d
    | Rejected msg => Raise msg
    end).

(** [await http.getBlock(blockNumber, true)]. *)
Definition http_getBlock (bn : Z) : Async (option Block) :=
  AwaitBlock bn (fun reply =>
    match reply with
    | BlockIs b => Return b
    | BlockFails msg => Raise msg
    end).

(** [new Date(Number(ts) * 1000).toISOString()]: a [RangeError] when the
    date is not valid. *)
Definition toISOString (ts : string) : Async unit :=
  if valid_time W ts then Return tt else Raise "Invalid time value".

(** [data.result || []]. *)
Definition result_or_empty (d : Data) : list HistTx :=
  match result d with Some l => l | None => [] end.

Definition fetchNormalTxs (address : string) (startBlock endBlock offset : Z)
  : Async (list HistTx) :=
  let params := mkRequest txlist address startBlock endBlock "1" offset "asc"
                          (or_empty ETHERSCAN_KEY) in
  data <- axios_get params ;;
  if negb (status data =? "1")
     && negb (message data =? "No transactions found")
  then Raise ("Etherscan normal error: " ++ message data)
  else Return (result_or_empty data).

Definition fetchInternalTxs (address : string) (startBlock endBlock offset : Z)
  : Async (list HistTx) :=
  let params := mkRequest txlistinternal address startBlock endBlock "1"
                          offset "asc" (or_empty ETHERSCAN_KEY) in
  data <- axios_get params ;;
  if negb (status data =? "1")
     && negb (message data =? "No transactions found")
  then Raise ("Etherscan internal error: " ++ message data)
  else Return (result_or_empty data).

(** [t.input.slice(0, 18)], printed when [t.input && t.input !== '0x']. *)
Definition input_prefix (t : HistTx) : option string :=
  match h_input t with
  | Some i => if truthy i && negb (i =? "0x")
              then Some (substring 0 18 i) else None
  | None => None
  end.

(** [t.type || 'call']. *)
Definition type_or_call (t : HistTx) : string :=
  match h_type t with
  | Some ty => if truthy ty then ty else "call"
  | None => "call"
  end.

(** The trace id, printed when [t.traceId] is truthy. *)
Definition trace_id (t : HistTx) : option string :=
  match h_traceId t with
  | Some i => if truthy i then Some i else None
  | None => None
  end.

(** The body of the first [forEach] of [printHistory] (lines 57 to 62). *)
Definition printNormal (t : HistTx) : Async unit :=
  print (HistHead Normal t) ;;
  toISOString (h_timeStamp t) ;;
  print (HistWhere Normal t) ;;
  wei <- BigInt (h_value t) ;;
  print (HistValue Normal t wei) ;;
  match input_prefix t with
  | Some p => print (HistInput p)
  | None => Return tt
  end.

(** The body of the second [forEach] of [printHistory] (lines 69 to 74). *)
Definition printInternal (t : HistTx) : Async unit :=
  print (HistHead Internal t) ;;
  toISOString (h_timeStamp t) ;;
  print (HistWhere Internal t) ;;
  wei <- BigInt (h_value t) ;;
  print (HistValue Internal t wei) ;;
  print (HistType (type_or_call t)).

Definition printHistory (address : string) : Async unit :=
  print (FetchingNormal address) ;;
  normal <- fetchNormalTxs address 0 99999999 10000 ;;
  print (FoundNormal (length normal)) ;;
  forEach (slice_last 5 normal) printNormal ;;
  print (FetchingInternal address) ;;
  internal <- fetchInternalTxs address 0 99999999 10000 ;;
  print (FoundInternal (length internal)) ;;
  forEach (slice_last 5 internal) printInternal.

(** [from === WATCH || to === WATCH] on the lower-cased properties of an
    element of [block.transactions]. *)
Definition touches_watch (tx : TxEntry) : bool :=
  let from := toLowerCase (or_empty (entry_from tx)) in
  let to := toLowerCase (or_empty (entry_to tx)) in
  (from =? WATCH) || (to =? WATCH).

(** The body of the loop over the internal records of a block (lines 102 to
    109). *)
Definition printLiveInternal (t : HistTx) : Async unit :=
  print (LiveInternalHead t) ;;
  wei <- BigInt (h_value t) ;;
  print (LiveInternalValue t wei (type_or_call t) (trace_id t)).

Definition handleBlock (blockNumber : Z) : Async unit :=
  block <- http_getBlock blockNumber ;;
  (* 1) normal txs *)
  match block with
  | Some b =>
      match transactions b with
      | Some txs =>
          forEach txs (fun tx =>
            if touches_watch tx then print (LiveNormal blockNumber tx)
            else Return tt)
      | None => Return tt
      end
  | None => Return tt
  end ;;
  (* 2) internal txs *)
  try_catch
    (ints <- fetchInternalTxs WATCH blockNumber blockNumber 1000 ;;
     forEach ints printLiveInternal)
    (fun e => print (InternalFetchError e)).

(** The listener that [liveMonitor] registers for ['block']. *)
Definition on_block (bn : Z) : Async unit :=
  try_catch (handleBlock bn) (fun e => print (BlockError e)).

(** The listener that [liveMonitor] registers for ['close']. *)
Definition on_close : Async unit := print WsClosed.

Definition liveMonitor (address : string) : Async unit :=
  print (LiveStart address) ;;
  Do OnBlock (Return tt) ;;
  if has_websocket W then Do OnClose (Return tt) else Return tt.

Definition main : Async unit :=
  try_catch (printHistory WATCH ;; liveMonitor WATCH)
            (fun e => print (Fatal e) ;; Halt 1).

(** The module body: the configuration guard, then the main IIFE. *)
Definition script : Async unit :=
  if config_missing then print MissingEnv ;; Halt 1 else main.

(* ---------------------------------------------------------------------- *)
(** ** Running the script *)

(** One computation on its own: every reply arrives before anything else
    happens. *)
Fixpoint exec {A} (m : Async A) (s : St) : Res A * St :=
  match m with
  | Return a => (Ret a, s)
  | Raise e => (Throw e, s)
  | Halt c => (Halted, halted c s)
  | Do e k => exec k (perform e s)
  | AwaitGet r k => exec (k (etherscan W (calls s) r)) (sent r s)
  | AwaitBlock bn k => exec (k (node W bn)) (record [GetBlock bn] s)
  end.

(** The synchronous part of a computation, up to the place where it waits:
    the request has gone out and the rest is ready to take the reply. *)
Fixpoint sync {A} (m : Async A) (s : St) : Sync A :=
  match m with
  | Return a => Finished (Ret a) s
  | Raise e => Finished (Throw e) s
  | Halt c => Finished Halted (halted c s)
  | Do e k => sync k (perform e s)
  | AwaitGet r k => Suspended (sent r s) (k (etherscan W (calls s) r))
  | AwaitBlock bn k => Suspended (record [GetBlock bn] s) (k (node W bn))
  end.

(** A listener runs until it waits or ends; the promise it returns is
    dropped. *)
Definition advance (t : Async unit) (l : Loop) : Loop :=
  match sync t (st l) with
  | Finished _ s => mkLoop s (pending l)
  | Suspended s rest => mkLoop s (pending l ++ [rest])
  end.

Definition step (x : Step) (l : Loop) : Loop :=
  match exited (st l) with
  | Some _ => l
  | None =>
      match x with
      | Deliver (NewBlock bn) =>
          if block_listener (st l) then advance (on_block bn) l else l
      | Deliver Closed =>
          if close_listener (st l) then advance on_close l else l
      | Settle i =>
          match nth_error (pending l) i with
          | Some t => advance t (mkLoop (st l) (remove_nth i (pending l)))
          | None => l
          end
      end
  end.

Definition loop (sch : list Step) (l : Loop) : Loop :=
  fold_left (fun l x => step x l) sch l.

(** The module body runs first and alone: no listener exists before
    [liveMonitor], so a delivery made meanwhile has no effect. *)
Definition boot : Loop := mkLoop (snd (exec script init)) [].

Definition run (sch : list Step) : Loop := loop sch boot.

End Script.

(* ---------------------------------------------------------------------- *)
(** ** Vocabulary of the statements *)

(** The request that a fetcher sends: always page 1, ascending. *)
Definition list_request (W : World) (act : Action) (addr : string)
  (startBlock endBlock off : Z) : Request :=
  mkRequest act addr startBlock endBlock "1" off "asc"
            (or_empty (ETHERSCAN_KEY W)).

(** The internal-transaction query that [handleBlock] sends for block
    [bn]. *)
Definition live_request (W : World) (bn : Z) : Request :=
  list_request W txlistinternal (WATCH W) bn bn 1000.

(** A body that the guard of the fetchers turns into an error. *)
Definition refused (d : Data) : bool :=
  negb (status d =? "1") && negb (message d =? "No transactions found").

(** The error, if any, that a fetcher raises on reply [r]; [label] is the
    prefix of its own message. *)
Definition fetch_error (label : string) (r : Reply) : option string :=
  match r with
  | Rejected m => Some m
  | Resolved d => if refused d then Some (label ++ message d)%string else None
  end.

(** A transaction touches [watch]: its [from] or its [to] is present and
    equal to it up to case. *)
Definition touches (watch : string) (tx : BlockTx) : Prop :=
  (exists a, tx_from tx = Some a /\ ci_eq a watch)
  \/ (exists a, tx_to tx = Some a /\ ci_eq a watch).

(** The block that [getBlock(bn, true)] of the imported provider resolves
    with when block [bn] holds the transactions [txs]: its [transactions]
    are their hashes. *)
Definition ethers_v6_block (txs : list BlockTx) : Block :=
  mkBlock (Some (map (fun tx => Hash (tx_hash tx)) txs)).

(** The elements of a block body as [handleBlock] reads it: none when the
    block is null or has no [transactions]. *)
Definition body (b : option Block) : list TxEntry :=
  match b with
  | Some (mkBlock (Some txs)) => txs
  | _ => []
  end.

(** What one block prints for its normal transactions. *)
Definition live_normal (W : World) (bn : Z) (txs : list TxEntry)
  : list Effect :=
  map (fun tx => Print (LiveNormal bn tx)) (filter (touches_watch W) txs).

(** What printing one record prints, and the error that cuts it short. *)
Definition normal_lines (W : World) (t : HistTx)
  : list Effect * option string :=
  if valid_time W (h_timeStamp t) then
    match StringToBigInt (h_value t) with
    | Some wei =>
        ([Print (HistHead Normal t); Print (HistWhere Normal t);
          Print (HistValue Normal t wei)]
         ++ match input_prefix t with
            | Some p => [Print (HistInput p)]
            | None => []
            end,
         None)
    | None =>
        ([Print (HistHead Normal t); Print (HistWhere Normal t)],
         Some (bigint_message (h_value t)))
    end
  else ([Print (HistHead Normal t)], Some "Invalid time value").

Definition internal_lines (W : World) (t : HistTx)
  : list Effect * option string :=
  if valid_time W (h_timeStamp t) then
    match StringToBigInt (h_value t) with
    | Some wei =>
        ([Print (HistHead Internal t); Print (HistWhere Internal t);
          Print (HistValue Internal t wei);
          Print (HistType (type_or_call t))],
         None)
    | None =>
        ([Print (HistHead Internal t); Print (HistWhere Internal t)],
         Some (bigint_message (h_value t)))
    end
  else ([Print (HistHead Internal t)], Some "Invalid time value").

Definition live_lines (t : HistTx) : list Effect * option string :=
  match StringToBigInt (h_value t) with
  | Some wei =>
      ([Print (LiveInternalHead t);
        Print (LiveInternalValue t wei (type_or_call t) (trace_id t))],
       None)
  | None => ([Print (LiveInternalHead t)], Some (bigint_message (h_value t)))
  end.

(** A loop over records stops at the first record that raises. *)
Fixpoint lines_of (f : HistTx -> list Effect * option string)
  (l : list HistTx) : list Effect * option string :=
  match l with
  | [] => ([], None)
  | t :: r =>
      match f t with
      | (es, Some e) => (es, Some e)
      | (es, None) => let (es', e') := lines_of f r in (es ++ es', e')
      end
  end.

(** What one block prints once the indexer has answered its internal
    query. *)
Definition internal_outcome (r : Reply) : list Effect :=
  match r with
  | Rejected m => [Print (InternalFetchError m)]
  | Resolved d =>
      if refused d
      then [Print (InternalFetchError
                     ("Etherscan internal error: " ++ message d))]
      else
        let (es, err) := lines_of live_lines (result_or_empty d) in
        es ++ match err with
              | Some e => [Print (InternalFetchError e)]
              | None => []
              end
  end.

(** The node resolves [getBlock bn] (with a block or with null). *)
Definition served (W : World) (bn : Z) : bool :=
  match node W bn with
  | BlockIs _ => true
  | BlockFails _ => false
  end.

(** The blocks delivered by a schedule, in the order delivered. *)
Definition delivered_blocks (sch : list Step) : list Z :=
  flat_map (fun x => match x with
                     | Deliver (NewBlock bn) => [bn]
                     | _ => []
                     end) sch.

(** The result that goes with an optional error. *)
Definition outcome (err : option string) : Res unit :=
  match err with
  | None => Ret tt
  | Some e => Throw e
  end.

(** Projections of a trace. *)
Definition blocks_fetched (tr : list Effect) : list Z :=
  flat_map (fun e => match e with GetBlock bn => [bn] | _ => [] end) tr.

Definition requests (tr : list Effect) : list Request :=
  flat_map (fun e => match e with Get r => [r] | _ => [] end) tr.

Definition normal_events (tr : list Effect) : list (Z * TxEntry) :=
  flat_map (fun e => match e with
                     | Print (LiveNormal bn tx) => [(bn, tx)]
                     | _ => []
                     end) tr.

Definition subscriptions (tr : list Effect) : nat :=
  length (filter (fun e => match e with OnBlock => true | _ => false end) tr).

(** The internal events that the live pass printed in full, with the call
    type and the trace id shown. *)
Definition internal_events (tr : list Effect)
  : list (HistTx * string * option string) :=
  flat_map (fun e => match e with
                     | Print (LiveInternalValue t _ ty id) => [(t, ty, id)]
                     | _ => []
                     end) tr.

(** The errors printed by the listeners. *)
Definition errors_printed (tr : list Effect) : list string :=
  flat_map (fun e => match e with
                     | Print (InternalFetchError m) => [m]
                     | Print (BlockError m) => [m]
                     | _ => []
                     end) tr.

(** The records that the history pass printed in full, in the order
    printed. *)
Definition history_printed (tr : list Effect) : list HistTx :=
  flat_map (fun e => match e with
                     | Print (HistValue _ t _) => [t]
                     | _ => []
                     end) tr.

(** The record counts announced by the history pass. *)
Definition counts_printed (tr : list Effect) : list nat :=
  flat_map (fun e => match e with
                     | Print (FoundNormal n) => [n]
                     | Print (FoundInternal n) => [n]
                     | _ => []
                     end) tr.

(** How many times the event of kind [k] with hash [h] was put on the
    console, by the history pass or by the live pass. *)
Definition emitted (k : Kind) (h : string) (tr : list Effect) : nat :=
  length (filter (fun e => match e, k with
                           | Print (HistHead Normal t), Normal => h_hash t =? h
                           | Print (HistHead Internal t), Internal =>
                               h_hash t =? h
                           | Print (LiveNormal _ tx), Normal =>
                               or_empty (entry_hash tx) =? h
                           | Print (LiveInternalHead t), Internal =>
                               h_hash t =? h
                           | _, _ => false
                           end) tr).

Definition exactly_once (k : Kind) (h : string) (tr : list Effect) : Prop :=
  emitted k h tr = 1.

(** Effects of the history pass: indexer requests and console output other
    than the Normal events of a live block. *)
Definition io_only (e : Effect) : bool :=
  match e with
  | Print (LiveNormal _ _) => false
  | Print _ | Get _ => true
  | _ => false
  end.

(** A computation that only queries the indexer and prints, and prints no
    Normal event of a live block. *)
Inductive Quiet {A : Type} : Async A -> Prop :=
| Quiet_Return (a : A) : Quiet (Return a)
| Quiet_Raise (e : string) : Quiet (Raise e)
| Quiet_Do (o : Out) (k : Async A) :
    io_only (Print o) = true -> Quiet k -> Quiet (Do (Print o) k)
| Quiet_Get (r : Request) (k : Reply -> Async A) :
    (forall x, Quiet (k x)) -> Quiet (AwaitGet r k).

(** Console output other than the Normal events of a live block. *)
Definition console_only (e : Effect) : bool :=
  match e with
  | Print (LiveNormal _ _) => false
  | Print _ => true
  | _ => false
  end.

(** The records of a reply, none when the request was rejected. *)
Definition batch (r : Reply) : list HistTx :=
  match r with
  | Resolved d => result_or_empty d
  | Rejected _ => []
  end.

(** An environment variable that the guard [!x] rejects: not set, or set to
    the empty string. *)
Definition var_missing (o : option string) : Prop := o = None \/ o = Some "".

(** *** The listeners in flight *)

(** What a listener of ['block'] still has to do once [getBlock] has
    answered: the continuation of [on_block] at its first wait. *)
Definition after_block (W : World) (bn : Z) (reply : BlockReply)
  : Async unit :=
  match on_block W bn with
  | AwaitBlock _ k => k reply
  | _ => Return tt
  end.

(** What it still has to do once the indexer has answered the internal
    query: the guard of [fetchInternalTxs], the loop over the records, and
    the two handlers around them. *)
Definition after_reply (reply : Reply) : Async unit :=
  try_catch
    (try_catch
       (ints <- (data <- match reply with
                         | Resolved d => Return d
                         | Rejected msg => Raise msg
                         end ;;
                 if negb (status data =? "1")
                    && negb (message data =? "No transactions found")
                 then Raise ("Etherscan internal error: " ++ message data)
                 else Return (result_or_empty data)) ;;
        forEach ints printLiveInternal)
       (fun e => print (InternalFetchError e)))
    (fun e => print (BlockError e)).

(** A listener in flight waits for a block or for a reply that is already
    decided. *)
Inductive Waiting :=
| ForBlock (bn : Z)
| ForReply (reply : Reply).

Definition listener_of (W : World) (w : Waiting) : Async unit :=
  match w with
  | ForBlock bn => after_block W bn (node W bn)
  | ForReply reply => after_reply reply
  end.

(** What the arrival of the awaited answer does: the new state, and what
    the listener waits for next, if anything. *)
Definition settle (W : World) (w : Waiting) (s : St) : St * list Waiting :=
  match w with
  | ForBlock bn =>
      match node W bn with
      | BlockFails m => (record [Print (BlockError m)] s, [])
      | BlockIs b =>
          (sent (live_request W bn) (record (live_normal W bn (body b)) s),
           [ForReply (etherscan W (calls s) (live_request W bn))])
      end
  | ForReply reply => (record (internal_outcome reply) s, [])
  end.

(** The requests that the listeners waiting for a block will send. *)
Definition queries_to_come (W : World) (ws : list Waiting) : list Request :=
  flat_map (fun w => match w with
                     | ForBlock bn =>
                         if served W bn then [live_request W bn] else []
                     | ForReply _ => []
                     end) ws.

(** A computation that never waits. *)
Inductive Immediate {A : Type} : Async A -> Prop :=
| Immediate_Return (a : A) : Immediate (Return a)
| Immediate_Raise (e : string) : Immediate (Raise e)
| Immediate_Halt (c : Z) : Immediate (Halt c)
| Immediate_Do (e : Effect) (k : Async A) :
    Immediate k -> Immediate (Do e k).

(** The event loop seen through what its listeners wait for: one move of
    the environment on the state and the waiting listeners. *)
Definition astep (W : World) (x : Step) (c : St * list Waiting)
  : St * list Waiting :=
  match exited (fst c) with
  | Some _ => c
  | None =>
      match x with
      | Deliver (NewBlock bn) =>
          if block_listener (fst c)
          then (record [GetBlock bn] (fst c), snd c ++ [ForBlock bn])
          else c
      | Deliver Closed =>
          if close_listener (fst c)
          then (record [Print WsClosed] (fst c), snd c)
          else c
      | Settle i =>
          match nth_error (snd c) i with
          | Some w =>
              (fst (settle W w (fst c)),
               remove_nth i (snd c) ++ snd (settle W w (fst c)))
          | None => c
          end
      end
  end.

Definition aloop (W : World) (sch : list Step) (c : St * list Waiting)
  : St * list Waiting :=
  fold_left (fun c x => astep W x c) sch c.

(** The loop state that a state and its waiting listeners stand for. *)
Definition loop_of (W : World) (c : St * list Waiting) : Loop :=
  mkLoop (fst c) (map (listener_of W) (snd c)).

(* ---------------------------------------------------------------------- *)
(** ** Sample worlds *)

Definition watched : string := "0x52908400098527886E0F7030069857D2E4169EE7".
Definition stranger : string := "0xde709f2102306220921060314715629080e2fb77".
Definition bystander : string := "0x27b1fdb04752bbc536007a920d24acb045561c26".

Definition env0 : Env :=
  mkEnv (Some "wss://sepolia.example/ws") (Some "https://sepolia.example/rpc")
        (Some watched) (Some "KEY").

(** The clock of the samples takes the strings of one to twelve decimal
    digits for times, as JavaScript does, and no other string; the samples
    only hold timestamps of ten digits. *)
Definition sample_clock (ts : string) : bool :=
  match numeral 10 ts with
  | Some _ => (String.length ts <=? 12)%nat
  | None => false
  end.

(** A record of the indexer: a transfer of [value] wei from [stranger] to
    the watched account, in block [bn]. *)
Definition hist (h bn : string) : HistTx :=
  mkHistTx h bn "1700000000" stranger (toLowerCase watched)
           "1000000000000000" (Some "0x") None None.

(** The internal transfer made by transaction [h] of block [bn]. *)
Definition internal (h bn : string) : HistTx :=
  mkHistTx h bn "1700000000" stranger (toLowerCase watched) "7" None
           (Some "call") (Some "0_1").

Definition found (l : list HistTx) : Reply := Resolved (mkData "1" "OK" (Some l)).

Definition none_found : Reply :=
  Resolved (mkData "0" "No transactions found" (Some [])).

(** What the indexer sends when the key is over its rate. *)
Definition rate_limited : Reply := Resolved (mkData "0" "NOTOK" None).

(** The record lies in the block range of the request. *)
Definition in_range (r : Request) (t : HistTx) : bool :=
  match StringToBigInt (h_blockNumber t) with
  | Some n => ((startblock r <=? n) && (n <=? endblock r))%Z
  | None => false
  end.

(** An indexer that holds [normal] and [internal] and always answers with
    the records of the range asked for. *)
Definition indexer (normal internal : list HistTx) (n : nat) (r : Request)
  : Reply :=
  match filter (in_range r)
               (match action r with
                | txlist => normal
                | txlistinternal => internal
                end) with
  | [] => none_found
  | l => found l
  end.

(** A node whose every block holds the transactions [txs]. *)
Definition node_of (txs : list BlockTx) (bn : Z) : BlockReply :=
  BlockIs (Some (ethers_v6_block txs)).

(** Transaction [0xa1] pays the watched account (written in mixed case);
    [0xb2] is between two other accounts. *)
Definition tx_a1 : BlockTx :=
  mkBlockTx "0xa1" (Some stranger) (Some watched) (Some 1000000000000000%Z).

Definition tx_b2 : BlockTx :=
  mkBlockTx "0xb2" (Some stranger) (Some bystander) (Some 5%Z).

(** The indexer already lists transaction [0xa1] of block 10 and the
    internal transfer it made; the node then announces block 10. *)
Definition handoff_world : World :=
  mkWorld env0 (indexer [hist "0xa1" "10"] [internal "0xa1" "10"])
          (node_of [tx_a1; tx_b2]) false sample_clock.

(** The indexer is unreachable. *)
Definition down_world : World :=
  mkWorld env0 (fun _ _ => Rejected "Request failed with status code 503")
          (node_of [tx_a1]) false sample_clock.

(** The indexer serves the history, then rejects every later request. *)
Definition flaky_world : World :=
  mkWorld env0
          (fun n r => if (n <? 2)%nat then indexer [] [] n r
                      else Rejected "Request failed with status code 429")
          (node_of [tx_a1; tx_b2]) false sample_clock.

(** The indexer says [No transactions found] and yet sends a record. *)
Definition odd_world : World :=
  mkWorld env0
          (fun _ _ => Resolved (mkData "0" "No transactions found"
                                       (Some [hist "0xa1" "10"])))
          (node_of []) false sample_clock.

(** The indexer holds three records and serves them two per page. *)
Definition paged_world : World :=
  mkWorld env0
          (fun _ r => if page r =? "1"
                      then found [hist "0xa1" "10"; hist "0xa2" "11"]
                      else if page r =? "2" then found [hist "0xa3" "12"]
                      else none_found)
          (node_of []) false sample_clock.

(** The indexer is over its rate for the first two requests and serves the
    history from the third on. *)
Definition throttled_world : World :=
  mkWorld env0
          (fun n r => if (n <? 2)%nat then rate_limited
                      else indexer [hist "0xa1" "10"] [] n r)
          (node_of []) false sample_clock.

(** Six normal records in blocks 10 to 15 and an internal one in block 3. *)
Definition six_normal : list HistTx :=
  [hist "0xa1" "10"; hist "0xa2" "11"; hist "0xa3" "12"; hist "0xa4" "13";
   hist "0xa5" "14"; hist "0xa6" "15"].

Definition old_internal : HistTx := internal "0xc7" "3".

Definition long_world : World :=
  mkWorld env0 (indexer six_normal [old_internal]) (node_of []) false
          sample_clock.

(** A block that is null, and a block without [transactions]. *)
Definition bodiless_world : World :=
  mkWorld env0 (indexer [] [])
          (fun bn => if (bn =? 7)%Z then BlockIs None
                     else BlockIs (Some (mkBlock None)))
          false sample_clock.

(** [ADDRESS] is not set. *)
Definition unset_world : World :=
  mkWorld (mkEnv (Some "wss://sepolia.example/ws")
                 (Some "https://sepolia.example/rpc") None (Some "KEY"))
          (indexer [hist "0xa1" "10"] []) (node_of [tx_a1]) false
          sample_clock.

(** [handoff_world] with [ADDRESS] written in lower case. *)
Definition lower_world : World :=
  mkWorld (mkEnv (Some "wss://sepolia.example/ws")
                 (Some "https://sepolia.example/rpc")
                 (Some "0x52908400098527886e0f7030069857d2e4169ee7")
                 (Some "KEY"))
          (indexer [hist "0xa1" "10"] [internal "0xa1" "10"])
          (node_of [tx_a1; tx_b2]) false sample_clock.

(** The node cannot serve block 8. *)
Definition broken_node_world : World :=
  mkWorld env0 (indexer [] [])
          (fun bn => if (bn =? 8)%Z then BlockFails "missing response"
                     else node_of [tx_a1] bn)
          false sample_clock.

(** The indexer lists two internal transfers of block 9, the second without
    a call type. *)
Definition untyped_internal : HistTx :=
  mkHistTx "0xc8" "9" "1700000100" stranger (toLowerCase watched) "8" None
           None None.

Definition internal_world : World :=
  mkWorld env0 (indexer [] [internal "0xc7" "9"; untyped_internal])
          (node_of []) false sample_clock.

(** The indexer lists a normal record whose value is not an integer and, in
    block 9, an internal record whose value is not a number. *)
Definition bad_value (h bn v : string) : HistTx :=
  mkHistTx h bn "1700000000" stranger (toLowerCase watched) v (Some "0x")
           None None.

Definition malformed_world : World :=
  mkWorld env0
          (indexer [hist "0xa1" "10"; bad_value "0xa2" "11" "1.5";
                    hist "0xa3" "12"]
                   [internal "0xc7" "9"; bad_value "0xc8" "9" "abc";
                    internal "0xc9" "9"])
          (node_of []) false sample_clock.

(* ---------------------------------------------------------------------- *)
(** ** Strings: folding case decides case-insensitive equality *)

Lemma nat_of_lower_char (c : ascii) :
  nat_of_ascii (lower_char c)
  = if is_upper c then nat_of_ascii c + 32 else nat_of_ascii c.
Proof.
  unfold lower_char. destruct (is_upper c) eqn:U; [|reflexivity].
  apply nat_ascii_embedding.
  unfold is_upper in U. apply andb_prop in U as [_ U].
  apply Nat.leb_le in U. lia.
Qed.

Lemma is_upper_range (c : ascii) :
  is_upper c = true <-> 65 <= nat_of_ascii c <= 90.
Proof.
  unfold is_upper. rewrite andb_true_iff, !Nat.leb_le. tauto.
Qed.

Lemma nat_of_ascii_inj (a b : ascii) :
  nat_of_ascii a = nat_of_ascii b -> a = b.
Proof.
  intros H. rewrite <- (ascii_nat_embedding a), <- (ascii_nat_embedding b).
  now rewrite H.
Qed.

Lemma lower_char_same_letter (a b : ascii) :
  lower_char a = lower_char b <-> same_letter a b.
Proof.
  unfold same_letter. split.
  - intros H. apply (f_equal nat_of_ascii) in H.
    rewrite !nat_of_lower_char in H.
    destruct (is_upper a) eqn:Ua, (is_upper b) eqn:Ub.
    + left. apply nat_of_ascii_inj. lia.
    + right. left. split; [reflexivity | lia].
    + right. right. split; [reflexivity | lia].
    + left. now apply nat_of_ascii_inj.
  - intros [-> | [[Ua E] | [Ub E]]]; [reflexivity | |];
      apply nat_of_ascii_inj; rewrite !nat_of_lower_char.
    + rewrite Ua. destruct (is_upper b) eqn:Ub; [|lia].
      apply is_upper_range in Ua, Ub. lia.
    + rewrite Ub. destruct (is_upper a) eqn:Ua; [|lia].
      apply is_upper_range in Ua, Ub. lia.
Qed.

Lemma toLowerCase_ci_eq (s t : string) :
  toLowerCase s = toLowerCase t <-> ci_eq s t.
Proof.
  split.
  - revert t. induction s as [|a s IH]; intros [|b t] H; simpl in H;
      try discriminate.
    + constructor.
    + injection H as Hc Hr. constructor.
      * now apply lower_char_same_letter.
      * now apply IH.
  - induction 1 as [|a b s t Hc _ IH]; simpl; [reflexivity|].
    apply lower_char_same_letter in Hc. now rewrite Hc, IH.
Qed.

Lemma lower_char_idem (c : ascii) : lower_char (lower_char c) = lower_char c.
Proof.
  apply nat_of_ascii_inj. rewrite nat_of_lower_char.
  destruct (is_upper (lower_char c)) eqn:U; [|reflexivity].
  apply is_upper_range in U. rewrite nat_of_lower_char in U.
  destruct (is_upper c) eqn:Uc; [apply is_upper_range in Uc; lia|].
  apply is_upper_range in U. congruence.
Qed.

Lemma toLowerCase_idem (s : string) :
  toLowerCase (toLowerCase s) = toLowerCase s.
Proof.
  induction s as [|c s IH]; simpl; [reflexivity|].
  now rewrite lower_char_idem, IH.
Qed.

(* ---------------------------------------------------------------------- *)
(** ** Running one computation *)

Lemma record_nil (s : St) : record [] s = s.
Proof. destruct s. unfold record. simpl. now rewrite app_nil_r. Qed.

Lemma record_record (a b : list Effect) (s : St) :
  record b (record a s) = record (a ++ b) s.
Proof. unfold record. simpl. now rewrite app_assoc. Qed.

(** [exec] turns the sequencing of the code into the sequencing of runs. *)
Lemma exec_bind (W : World) {A B} (m : Async A) (f : A -> Async B) (s : St) :
  exec W (bind m f) s
  = match exec W m s with
    | (Ret a, s') => exec W (f a) s'
    | (Throw e, s') => (Throw e, s')
    | (Halted, s') => (Halted, s')
    end.
Proof.
  revert s. induction m as [a|e|c|e k IH|r k IH|bn k IH]; intros s; simpl;
    auto.
Qed.

Lemma exec_try_catch (W : World) {A} (m : Async A) (h : string -> Async A)
  (s : St) :
  exec W (try_catch m h) s
  = match exec W m s with
    | (Throw e, s') => exec W (h e) s'
    | other => other
    end.
Proof.
  revert s. induction m as [a|e|c|e k IH|r k IH|bn k IH]; intros s; simpl;
    auto.
Qed.

Lemma exec_forEach_if (W : World) {A} (p : A -> bool) (f : A -> Out)
  (l : list A) (s : St) :
  exec W (forEach l (fun x => if p x then print (f x) else Return tt)) s
  = (Ret tt, record (map (fun x => Print (f x)) (filter p l)) s).
Proof.
  revert s. induction l as [|x l IH]; intros s; simpl.
  - now rewrite record_nil.
  - rewrite exec_bind. destruct (p x); simpl.
    + rewrite IH. change (perform (Print (f x)) s) with (record [Print (f x)] s).
      now rewrite record_record.
    + apply IH.
Qed.

(** A loop whose body prints [fst (f t)] and ends as [snd (f t)] says. *)
Lemma exec_forEach_lines (W : World) (p : HistTx -> Async unit)
  (f : HistTx -> list Effect * option string) (l : list HistTx) (s : St) :
  (forall t s, exec W (p t) s = (outcome (snd (f t)), record (fst (f t)) s)) ->
  exec W (forEach l p) s
  = (outcome (snd (lines_of f l)), record (fst (lines_of f l)) s).
Proof.
  intros H. revert s. induction l as [|t l IH]; intros s; simpl.
  - now rewrite record_nil.
  - rewrite exec_bind, H. destruct (f t) as [es [e|]]; simpl; [reflexivity|].
    rewrite IH. destruct (lines_of f l) as [es' e']. simpl.
    now rewrite record_record.
Qed.

Lemma exec_printNormal (W : World) (t : HistTx) (s : St) :
  exec W (printNormal W t) s
  = (outcome (snd (normal_lines W t)), record (fst (normal_lines W t)) s).
Proof.
  unfold printNormal, normal_lines, toISOString, BigInt. simpl.
  destruct (valid_time W (h_timeStamp t)); simpl; [|reflexivity].
  destruct (StringToBigInt (h_value t)) as [wei|]; simpl.
  - destruct (input_prefix t); simpl; unfold perform, record; simpl;
      rewrite <- ?app_assoc; reflexivity.
  - unfold perform, record. simpl. rewrite <- ?app_assoc. reflexivity.
Qed.

Lemma exec_printInternal (W : World) (t : HistTx) (s : St) :
  exec W (printInternal W t) s
  = (outcome (snd (internal_lines W t)), record (fst (internal_lines W t)) s).
Proof.
  unfold printInternal, internal_lines, toISOString, BigInt. simpl.
  destruct (valid_time W (h_timeStamp t)); simpl; [|reflexivity].
  destruct (StringToBigInt (h_value t)) as [wei|]; simpl;
    unfold perform, record; simpl; rewrite <- ?app_assoc; reflexivity.
Qed.

Lemma exec_printLiveInternal (W : World) (t : HistTx) (s : St) :
  exec W (printLiveInternal t) s
  = (outcome (snd (live_lines t)), record (fst (live_lines t)) s).
Proof.
  unfold printLiveInternal, live_lines, BigInt. simpl.
  destruct (StringToBigInt (h_value t)) as [wei|]; simpl;
    unfold perform, record; simpl; rewrite <- ?app_assoc; reflexivity.
Qed.

(* ---------------------------------------------------------------------- *)
(** ** What each function does, in one equation *)

Lemma fetchNormalTxs_run (W : World) (a : string) (sb eb off : Z) (s : St) :
  exec W (fetchNormalTxs W a sb eb off) s
  = (match etherscan W (calls s) (list_request W txlist a sb eb off) with
     | Resolved d =>
         if refused d then Throw ("Etherscan normal error: " ++ message d)
         else Ret (result_or_empty d)
     | Rejected m => Throw m
     end,
     sent (list_request W txlist a sb eb off) s).
Proof.
  unfold fetchNormalTxs, axios_get, list_request, refused. simpl.
  destruct (etherscan W (calls s) _) as [d|m]; [|reflexivity]. simpl.
  destruct (negb (status d =? "1") && _); reflexivity.
Qed.

Lemma fetchInternalTxs_run (W : World) (a : string) (sb eb off : Z) (s : St) :
  exec W (fetchInternalTxs W a sb eb off) s
  = (match etherscan W (calls s)
                     (list_request W txlistinternal a sb eb off) with
     | Resolved d =>
         if refused d then Throw ("Etherscan internal error: " ++ message d)
         else Ret (result_or_empty d)
     | Rejected m => Throw m
     end,
     sent (list_request W txlistinternal a sb eb off) s).
Proof.
  unfold fetchInternalTxs, axios_get, list_request, refused. simpl.
  destruct (etherscan W (calls s) _) as [d|m]; [|reflexivity]. simpl.
  destruct (negb (status d =? "1") && _); reflexivity.
Qed.

Lemma exec_getBlock (W : World) (bn : Z) (s : St) :
  exec W (http_getBlock bn) s
  = (match node W bn with
     | BlockIs b => Ret b
     | BlockFails m => Throw m
     end, record [GetBlock bn] s).
Proof. simpl. now destruct (node W bn). Qed.

(** The part of [handleBlock] that follows the internal query, run on the
    reply: it never raises. *)
Lemma internal_part_run (W : World) (bn : Z) (s : St) :
  exec W
    (try_catch
       (ints <- fetchInternalTxs W (WATCH W) bn bn 1000 ;;
        forEach ints printLiveInternal)
       (fun e => print (InternalFetchError e))) s
  = (Ret tt,
     record (internal_outcome (etherscan W (calls s) (live_request W bn)))
            (sent (live_request W bn) s)).
Proof.
  rewrite exec_try_catch, exec_bind, fetchInternalTxs_run.
  unfold live_request, internal_outcome.
  destruct (etherscan W (calls s) _) as [d|m]; [|reflexivity].
  destruct (refused d); [reflexivity|].
  rewrite (exec_forEach_lines W printLiveInternal live_lines)
    by apply exec_printLiveInternal.
  destruct (lines_of live_lines (result_or_empty d)) as [es [e|]]; simpl.
  - change (perform (Print (InternalFetchError e))
              (record es (sent (list_request W txlistinternal (WATCH W)
                                  bn bn 1000) s)))
      with (record [Print (InternalFetchError e)]
              (record es (sent (list_request W txlistinternal (WATCH W)
                                  bn bn 1000) s))).
    now rewrite record_record.
  - now rewrite app_nil_r.
Qed.

Lemma handleBlock_run (W : World) (bn : Z) (s : St) :
  exec W (handleBlock W bn) s
  = match node W bn with
    | BlockFails m => (Throw m, record [GetBlock bn] s)
    | BlockIs b =>
        let r := live_request W bn in
        let s1 := record (GetBlock bn :: live_normal W bn (body b)) s in
        (Ret tt, record (internal_outcome (etherscan W (calls s) r))
                        (sent r s1))
    end.
Proof.
  unfold handleBlock. rewrite exec_bind, exec_getBlock.
  destruct (node W bn) as [b|m]; [|reflexivity].
  rewrite exec_bind.
  assert (E : exec W
                (match b with
                 | Some b0 =>
                     match transactions b0 with
                     | Some txs =>
                         forEach txs (fun tx =>
                           if touches_watch W tx
                           then print (LiveNormal bn tx) else Return tt)
                     | None => Return tt
                     end
                 | None => Return tt
                 end) (record [GetBlock bn] s)
              = (Ret tt, record (GetBlock bn :: live_normal W bn (body b)) s)).
  { destruct b as [[[txs|]]|]; simpl; try reflexivity.
    rewrite exec_forEach_if, record_record. reflexivity. }
  rewrite E, internal_part_run. reflexivity.
Qed.

Lemma on_block_run (W : World) (bn : Z) (s : St) :
  exec W (on_block W bn) s
  = match node W bn with
    | BlockFails m => (Ret tt, record [GetBlock bn; Print (BlockError m)] s)
    | BlockIs b =>
        let r := live_request W bn in
        let s1 := record (GetBlock bn :: live_normal W bn (body b)) s in
        (Ret tt, record (internal_outcome (etherscan W (calls s) r))
                        (sent r s1))
    end.
Proof.
  unfold on_block. rewrite exec_try_catch, handleBlock_run.
  destruct (node W bn) as [b|m]; [reflexivity|].
  simpl. change (perform (Print (BlockError m)) (record [GetBlock bn] s))
    with (record [Print (BlockError m)] (record [GetBlock bn] s)).
  now rewrite record_record.
Qed.

Lemma exec_print_then (W : World) {A} (o : Out) (f : unit -> Async A)
  (s : St) :
  exec W (bind (print o) f) s = exec W (f tt) (record [Print o] s).
Proof. reflexivity. Qed.

(** The history pass, reply by reply and record by record. *)
Lemma printHistory_run (W : World) (a : string) (s : St) :
  exec W (printHistory W a) s
  = let rN := list_request W txlist a 0 99999999 10000 in
    let rI := list_request W txlistinternal a 0 99999999 10000 in
    let s1 := sent rN (record [Print (FetchingNormal a)] s) in
    match etherscan W (calls s) rN with
    | Rejected m => (Throw m, s1)
    | Resolved dN =>
        if refused dN
        then (Throw ("Etherscan normal error: " ++ message dN), s1)
        else
          let normal := result_or_empty dN in
          let shown := lines_of (normal_lines W) (slice_last 5 normal) in
          match snd shown with
          | Some e =>
              (Throw e,
               record (Print (FoundNormal (length normal)) :: fst shown) s1)
          | None =>
              let s2 :=
                sent rI
                  (record (Print (FoundNormal (length normal)) :: fst shown
                           ++ [Print (FetchingInternal a)]) s1) in
              match etherscan W (S (calls s)) rI with
              | Rejected m => (Throw m, s2)
              | Resolved dI =>
                  if refused dI
                  then (Throw ("Etherscan internal error: " ++ message dI),
                        s2)
                  else
                    let internal := result_or_empty dI in
                    let shownI :=
                      lines_of (internal_lines W) (slice_last 5 internal) in
                    (outcome (snd shownI),
                     record (Print (FoundInternal (length internal))
                             :: fst shownI) s2)
              end
          end
    end.
Proof.
  unfold printHistory. cbv zeta.
  rewrite exec_print_then.
  rewrite exec_bind, fetchNormalTxs_run. simpl calls.
  destruct (etherscan W (calls s) _) as [dN|m]; [|reflexivity].
  destruct (refused dN); [reflexivity|].
  rewrite exec_print_then, exec_bind.
  rewrite (exec_forEach_lines W (printNormal W) (normal_lines W))
    by apply exec_printNormal.
  destruct (lines_of (normal_lines W) (slice_last 5 (result_or_empty dN)))
    as [esN [e|]]; simpl outcome; cbv iota; simpl fst; simpl snd.
  { now rewrite record_record. }
  rewrite exec_print_then, exec_bind, fetchInternalTxs_run.
  rewrite !record_record. simpl calls. simpl app.
  destruct (etherscan W (S (calls s)) _) as [dI|m]; [|reflexivity].
  destruct (refused dI); [reflexivity|].
  rewrite exec_print_then.
  rewrite (exec_forEach_lines W (printInternal W) (internal_lines W))
    by apply exec_printInternal.
  now rewrite record_record.
Qed.

(* ---------------------------------------------------------------------- *)
(** ** The module body *)

Lemma Quiet_bind {A B} (m : Async A) (f : A -> Async B) :
  Quiet m -> (forall a, Quiet (f a)) -> Quiet (bind m f).
Proof.
  intros Hm Hf. induction Hm as [a|e|o k Ho _ IH|r k _ IH]; simpl.
  - apply Hf.
  - constructor.
  - now constructor.
  - constructor. intros x. apply IH.
Qed.

Lemma Quiet_forEach {A} (l : list A) (f : A -> Async unit) :
  (forall x, Quiet (f x)) -> Quiet (forEach l f).
Proof.
  intros H. induction l as [|x l IH]; simpl; [constructor|].
  apply Quiet_bind; auto.
Qed.

Lemma Quiet_print {A} (o : Out) (k : Async A) :
  io_only (Print o) = true -> Quiet k -> Quiet (bind (print o) (fun _ => k)).
Proof. intros Ho Hk. simpl. now constructor. Qed.

Lemma Quiet_fetchNormalTxs (W : World) (a : string) (sb eb off : Z) :
  Quiet (fetchNormalTxs W a sb eb off).
Proof.
  unfold fetchNormalTxs, axios_get. simpl. constructor. intros [d|m]; simpl.
  - destruct (negb (status d =? "1") && _); constructor.
  - constructor.
Qed.

Lemma Quiet_fetchInternalTxs (W : World) (a : string) (sb eb off : Z) :
  Quiet (fetchInternalTxs W a sb eb off).
Proof.
  unfold fetchInternalTxs, axios_get. simpl. constructor. intros [d|m]; simpl.
  - destruct (negb (status d =? "1") && _); constructor.
  - constructor.
Qed.

Lemma Quiet_printNormal (W : World) (t : HistTx) : Quiet (printNormal W t).
Proof.
  unfold printNormal, toISOString, BigInt.
  apply Quiet_print; [reflexivity|].
  destruct (valid_time W (h_timeStamp t)); simpl; [|constructor].
  constructor; [reflexivity|].
  destruct (StringToBigInt (h_value t)); simpl; [|constructor].
  constructor; [reflexivity|].
  destruct (input_prefix t); repeat constructor.
Qed.

Lemma Quiet_printInternal (W : World) (t : HistTx) : Quiet (printInternal W t).
Proof.
  unfold printInternal, toISOString, BigInt.
  apply Quiet_print; [reflexivity|].
  destruct (valid_time W (h_timeStamp t)); simpl; [|constructor].
  constructor; [reflexivity|].
  destruct (StringToBigInt (h_value t)); simpl; [|constructor].
  repeat constructor.
Qed.

Lemma Quiet_printHistory (W : World) (a : string) : Quiet (printHistory W a).
Proof.
  unfold printHistory.
  apply Quiet_print; [reflexivity|].
  apply Quiet_bind; [apply Quiet_fetchNormalTxs|]. intros normal.
  apply Quiet_print; [reflexivity|].
  apply Quiet_bind; [apply Quiet_forEach, Quiet_printNormal|]. intros _.
  apply Quiet_print; [reflexivity|].
  apply Quiet_bind; [apply Quiet_fetchInternalTxs|]. intros internal.
  apply Quiet_print; [reflexivity|].
  apply Quiet_forEach, Quiet_printInternal.
Qed.

(** A quiet computation leaves the listeners and the process alone. *)
Lemma Quiet_exec (W : World) {A} (m : Async A) (s : St) :
  Quiet m ->
  exists es,
    trace (snd (exec W m s)) = trace s ++ es
    /\ Forall (fun e => io_only e = true) es
    /\ exited (snd (exec W m s)) = exited s
    /\ block_listener (snd (exec W m s)) = block_listener s
    /\ close_listener (snd (exec W m s)) = close_listener s
    /\ fst (exec W m s) <> Halted.
Proof.
  intros Hm. revert s. induction Hm as [a|e|o k Ho _ IH|r k _ IH]; intros s.
  - exists []. simpl. rewrite app_nil_r. repeat split; auto; discriminate.
  - exists []. simpl. rewrite app_nil_r. repeat split; auto; discriminate.
  - destruct (IH (perform (Print o) s)) as (es & T & F & E & B & C & H).
    exists (Print o :: es). simpl. rewrite T, E, B, C. simpl.
    rewrite <- app_assoc. repeat split; auto.
  - destruct (IH (etherscan W (calls s) r) (sent r s))
      as (es & T & F & E & B & C & H).
    exists (Get r :: es). simpl. rewrite T, E, B, C. simpl.
    rewrite <- app_assoc. repeat split; auto.
Qed.

Lemma io_only_projections (es : list Effect) :
  Forall (fun e => io_only e = true) es ->
  subscriptions es = 0 /\ blocks_fetched es = [] /\ normal_events es = [].
Proof.
  induction 1 as [|e es He _ (IH1 & IH2 & IH3)]; [auto|].
  destruct e as [r|bn| | |o|c]; try discriminate He.
  - auto.
  - destruct o; try discriminate He; auto.
Qed.

Lemma liveMonitor_run (W : World) (a : string) (s : St) :
  exec W (liveMonitor W a) s
  = (Ret tt,
     mkSt (calls s)
          (trace s ++ Print (LiveStart a) :: OnBlock
           :: (if has_websocket W then [OnClose] else []))
          true (close_listener s || has_websocket W) (exited s)).
Proof.
  unfold liveMonitor. simpl.
  destruct (has_websocket W); simpl; unfold perform; simpl;
    rewrite <- !app_assoc; simpl.
  - now rewrite orb_true_r.
  - now rewrite orb_false_r.
Qed.

Lemma main_run (W : World) (s : St) :
  exec W (main W) s
  = match exec W (printHistory W (WATCH W)) s with
    | (Ret _, s') => exec W (liveMonitor W (WATCH W)) s'
    | (Throw e, s') => (Halted, halted 1 (record [Print (Fatal e)] s'))
    | (Halted, s') => (Halted, s')
    end.
Proof.
  unfold main. rewrite exec_try_catch, exec_bind.
  destruct (exec W (printHistory W (WATCH W)) s) as [[u|e|] s'].
  - now rewrite liveMonitor_run.
  - reflexivity.
  - reflexivity.
Qed.

(** Projections of a trace are taken part by part. *)
Lemma blocks_fetched_app (a b : list Effect) :
  blocks_fetched (a ++ b) = blocks_fetched a ++ blocks_fetched b.
Proof. apply flat_map_app. Qed.

Lemma normal_events_app (a b : list Effect) :
  normal_events (a ++ b) = normal_events a ++ normal_events b.
Proof. apply flat_map_app. Qed.

Lemma requests_app (a b : list Effect) :
  requests (a ++ b) = requests a ++ requests b.
Proof. apply flat_map_app. Qed.

Lemma requests_print_cons (o : Out) (l : list Effect) :
  requests (Print o :: l) = requests l.
Proof. reflexivity. Qed.

Lemma history_printed_app (a b : list Effect) :
  history_printed (a ++ b) = history_printed a ++ history_printed b.
Proof. apply flat_map_app. Qed.


Lemma internal_events_app (a b : list Effect) :
  internal_events (a ++ b) = internal_events a ++ internal_events b.
Proof. apply flat_map_app. Qed.

Lemma errors_printed_app (a b : list Effect) :
  errors_printed (a ++ b) = errors_printed a ++ errors_printed b.
Proof. apply flat_map_app. Qed.

Lemma subscriptions_app (a b : list Effect) :
  subscriptions (a ++ b) = subscriptions a + subscriptions b.
Proof. unfold subscriptions. now rewrite filter_app, length_app. Qed.

Lemma st_boot (W : World) : st (boot W) = snd (exec W (script W) init).
Proof. reflexivity. Qed.

(** Once the history pass has succeeded the listener is registered, and
    nothing has been fetched from the node yet. *)
Lemma script_started (W : World) :
  config_missing W = false ->
  fst (exec W (printHistory W (WATCH W)) init) = Ret tt ->
  exited (st (boot W)) = None
  /\ block_listener (st (boot W)) = true
  /\ close_listener (st (boot W)) = has_websocket W
  /\ blocks_fetched (trace (st (boot W))) = []
  /\ normal_events (trace (st (boot W))) = []
  /\ subscriptions (trace (st (boot W))) = 1.
Proof.
  intros Hc Hh. rewrite !st_boot. unfold script. rewrite Hc, main_run.
  destruct (Quiet_exec W (printHistory W (WATCH W)) init
              (Quiet_printHistory W (WATCH W)))
    as (es & Ht & Hio & F1 & _ & F3 & _).
  destruct (exec W (printHistory W (WATCH W)) init) as [[u|e|] s'];
    try discriminate.
  cbn [fst snd] in *. rewrite liveMonitor_run. simpl. rewrite Ht, F1, F3.
  destruct (io_only_projections es Hio) as (P1 & P2 & P3).
  rewrite !blocks_fetched_app, !normal_events_app, !subscriptions_app,
    P1, P2, P3.
  destruct (has_websocket W); repeat split; auto.
Qed.

(** When the history pass raises, the script reports it, exits with code 1
    and has registered nothing. *)
Lemma script_failed (W : World) (e : string) :
  config_missing W = false ->
  fst (exec W (printHistory W (WATCH W)) init) = Throw e ->
  exited (st (boot W)) = Some 1%Z
  /\ block_listener (st (boot W)) = false
  /\ close_listener (st (boot W)) = false
  /\ trace (st (boot W))
     = trace (snd (exec W (printHistory W (WATCH W)) init))
       ++ [Print (Fatal e); Exit 1]
  /\ blocks_fetched (trace (st (boot W))) = []
  /\ subscriptions (trace (st (boot W))) = 0.
Proof.
  intros Hc Hh. rewrite !st_boot. unfold script. rewrite Hc, main_run.
  destruct (Quiet_exec W (printHistory W (WATCH W)) init
              (Quiet_printHistory W (WATCH W)))
    as (es & Ht & Hio & _ & F2 & F3 & _).
  destruct (exec W (printHistory W (WATCH W)) init) as [[u|e'|] s'];
    try discriminate.
  cbn [fst snd] in *. injection Hh as ->. simpl.
  destruct (io_only_projections es Hio) as (P1 & P2 & _).
  rewrite <- !app_assoc. simpl. rewrite Ht.
  rewrite !blocks_fetched_app, !subscriptions_app, P1, P2.
  repeat split; auto.
Qed.

(** The history pass ends by returning or by raising. *)
Lemma printHistory_not_halted (W : World) (a : string) (s : St) :
  fst (exec W (printHistory W a) s) <> Halted.
Proof.
  destruct (Quiet_exec W (printHistory W a) s (Quiet_printHistory W a))
    as (_ & _ & _ & _ & _ & _ & H).
  exact H.
Qed.

(* ---------------------------------------------------------------------- *)
(** ** The listeners, stage by stage *)

Lemma sync_bind (W : World) {A B} (m : Async A) (f : A -> Async B) (s : St) :
  sync W (bind m f) s
  = match sync W m s with
    | Finished (Ret a) s' => sync W (f a) s'
    | Finished (Throw e) s' => Finished (Throw e) s'
    | Finished Halted s' => Finished Halted s'
    | Suspended s' rest => Suspended s' (bind rest f)
    end.
Proof.
  revert s. induction m as [a|e|c|e k IH|r k IH|bn k IH]; intros s; simpl;
    auto.
Qed.

Lemma sync_try_catch (W : World) {A} (m : Async A) (h : string -> Async A)
  (s : St) :
  sync W (try_catch m h) s
  = match sync W m s with
    | Finished (Throw e) s' => sync W (h e) s'
    | Finished r s' => Finished r s'
    | Suspended s' rest => Suspended s' (try_catch rest h)
    end.
Proof.
  revert s. induction m as [a|e|c|e k IH|r k IH|bn k IH]; intros s; simpl;
    auto.
Qed.

(** A computation that never waits ends within its synchronous part. *)
Lemma Immediate_sync (W : World) {A} (m : Async A) (s : St) :
  Immediate m -> sync W m s = Finished (fst (exec W m s)) (snd (exec W m s)).
Proof.
  intros H. revert s. induction H as [a|e|c|e k _ IH]; intros s; simpl; auto.
Qed.

Lemma Immediate_bind {A B} (m : Async A) (f : A -> Async B) :
  Immediate m -> (forall a, Immediate (f a)) -> Immediate (bind m f).
Proof.
  intros Hm Hf. induction Hm as [a|e|c|e k _ IH]; simpl;
    [apply Hf | constructor | constructor | now constructor].
Qed.

Lemma Immediate_try_catch {A} (m : Async A) (h : string -> Async A) :
  Immediate m -> (forall e, Immediate (h e)) -> Immediate (try_catch m h).
Proof.
  intros Hm Hh. induction Hm as [a|e|c|e k _ IH]; simpl;
    [constructor | apply Hh | constructor | now constructor].
Qed.

Lemma Immediate_forEach {A} (l : list A) (f : A -> Async unit) :
  (forall x, Immediate (f x)) -> Immediate (forEach l f).
Proof.
  intros H. induction l as [|x l IH]; simpl; [constructor|].
  apply Immediate_bind; auto.
Qed.

Lemma Immediate_print (o : Out) : Immediate (print o).
Proof. repeat constructor. Qed.

Lemma Immediate_printLiveInternal (t : HistTx) :
  Immediate (printLiveInternal t).
Proof.
  unfold printLiveInternal, BigInt.
  apply Immediate_bind; [apply Immediate_print|]. intros _.
  destruct (StringToBigInt (h_value t)); simpl; repeat constructor.
Qed.

Lemma Immediate_after_reply (reply : Reply) : Immediate (after_reply reply).
Proof.
  unfold after_reply.
  apply Immediate_try_catch; [|intros; apply Immediate_print].
  apply Immediate_try_catch; [|intros; apply Immediate_print].
  apply Immediate_bind.
  - apply Immediate_bind.
    + destruct reply; constructor.
    + intros d. destruct (negb (status d =? "1") && _); constructor.
  - intros ints. apply Immediate_forEach, Immediate_printLiveInternal.
Qed.

(** The last stage of a block listener: it prints the outcome of the
    internal query and ends without raising. *)
Lemma after_reply_run (W : World) (reply : Reply) (s : St) :
  exec W (after_reply reply) s = (Ret tt, record (internal_outcome reply) s).
Proof.
  unfold after_reply, internal_outcome.
  rewrite !exec_try_catch, !exec_bind.
  destruct reply as [d|m]; cbn [exec].
  - unfold refused.
    destruct (negb (status d =? "1")
              && negb (message d =? "No transactions found"));
      cbn [exec]; [reflexivity|].
    rewrite (exec_forEach_lines W printLiveInternal live_lines)
      by apply exec_printLiveInternal.
    destruct (lines_of live_lines (result_or_empty d)) as [es [e|]]; simpl.
    + change (perform (Print (InternalFetchError e)) (record es s))
        with (record [Print (InternalFetchError e)] (record es s)).
      now rewrite record_record.
    + now rewrite app_nil_r.
  - reflexivity.
Qed.

Lemma sync_after_reply (W : World) (reply : Reply) (s : St) :
  sync W (after_reply reply) s
  = Finished (Ret tt) (record (internal_outcome reply) s).
Proof.
  rewrite Immediate_sync by apply Immediate_after_reply.
  now rewrite after_reply_run.
Qed.

(** The listener of ['block'] calls [getBlock] at once and waits. *)
Lemma sync_on_block (W : World) (bn : Z) (s : St) :
  sync W (on_block W bn) s
  = Suspended (record [GetBlock bn] s) (after_block W bn (node W bn)).
Proof. reflexivity. Qed.

(** The rest of [handleBlock] once the block is there. *)
Lemma after_block_unfold (W : World) (bn : Z) (reply : BlockReply) :
  after_block W bn reply
  = try_catch
      (block <- match reply with
                | BlockIs b => Return b
                | BlockFails msg => Raise msg
                end ;;
       match block with
       | Some b =>
           match transactions b with
           | Some txs =>
               forEach txs (fun tx =>
                 if touches_watch W tx then print (LiveNormal bn tx)
                 else Return tt)
           | None => Return tt
           end
       | None => Return tt
       end ;;
       try_catch
         (ints <- fetchInternalTxs W (WATCH W) bn bn 1000 ;;
          forEach ints printLiveInternal)
         (fun e => print (InternalFetchError e)))
      (fun e => print (BlockError e)).
Proof. reflexivity. Qed.

Lemma sync_forEach_if (W : World) {A} (p : A -> bool) (f : A -> Out)
  (l : list A) (s : St) :
  sync W (forEach l (fun x => if p x then print (f x) else Return tt)) s
  = Finished (Ret tt) (record (map (fun x => Print (f x)) (filter p l)) s).
Proof.
  rewrite Immediate_sync.
  - now rewrite exec_forEach_if.
  - apply Immediate_forEach. intros x. destruct (p x); repeat constructor.
Qed.

Lemma sync_after_block (W : World) (bn : Z) (s : St) :
  sync W (after_block W bn (node W bn)) s
  = match node W bn with
    | BlockFails m => Finished (Ret tt) (record [Print (BlockError m)] s)
    | BlockIs b =>
        Suspended (sent (live_request W bn)
                        (record (live_normal W bn (body b)) s))
                  (after_reply (etherscan W (calls s) (live_request W bn)))
    end.
Proof.
  rewrite after_block_unfold.
  destruct (node W bn) as [b|m]; [|reflexivity].
  rewrite sync_try_catch, sync_bind. cbn [sync]. cbv iota beta.
  rewrite sync_bind.
  assert (E : sync W
                (match b with
                 | Some b0 =>
                     match transactions b0 with
                     | Some txs =>
                         forEach txs (fun tx =>
                           if touches_watch W tx
                           then print (LiveNormal bn tx) else Return tt)
                     | None => Return tt
                     end
                 | None => Return tt
                 end) s
              = Finished (Ret tt) (record (live_normal W bn (body b)) s)).
  { destruct b as [[[txs|]]|]; simpl; rewrite ?record_nil; try reflexivity.
    apply sync_forEach_if. }
  rewrite E. cbv iota beta.
  rewrite sync_try_catch, sync_bind. reflexivity.
Qed.

Lemma sync_listener (W : World) (w : Waiting) (s : St) :
  sync W (listener_of W w) s
  = match snd (settle W w s) with
    | [] => Finished (Ret tt) (fst (settle W w s))
    | w' :: _ => Suspended (fst (settle W w s)) (listener_of W w')
    end.
Proof.
  destruct w as [bn|reply]; simpl.
  - rewrite sync_after_block. now destruct (node W bn).
  - apply sync_after_reply.
Qed.

Lemma settle_short (W : World) (w : Waiting) (s : St) :
  length (snd (settle W w s)) <= 1.
Proof.
  destruct w as [bn|reply]; simpl; [|lia].
  destruct (node W bn); simpl; lia.
Qed.

(* ---------------------------------------------------------------------- *)
(** ** The event loop, seen through what its listeners wait for *)

Lemma advance_listener (W : World) (w : Waiting) (s : St)
  (ws : list Waiting) :
  advance W (listener_of W w) (loop_of W (s, ws))
  = loop_of W (fst (settle W w s), ws ++ snd (settle W w s)).
Proof.
  unfold advance, loop_of. simpl st. simpl pending. rewrite sync_listener.
  pose proof (settle_short W w s) as L.
  destruct (settle W w s) as [s' [|w' [|w'' nw]]]; simpl in *.
  - now rewrite app_nil_r.
  - now rewrite map_app.
  - lia.
Qed.

Lemma remove_nth_map {A B} (f : A -> B) (i : nat) (l : list A) :
  remove_nth i (map f l) = map f (remove_nth i l).
Proof.
  unfold remove_nth. now rewrite map_app, firstn_map, skipn_map.
Qed.

Lemma step_astep (W : World) (x : Step) (c : St * list Waiting) :
  step W x (loop_of W c) = loop_of W (astep W x c).
Proof.
  destruct c as [s ws]. unfold step, astep. simpl st. simpl fst. simpl snd.
  destruct (exited s); [reflexivity|].
  destruct x as [[bn|]|i].
  - destruct (block_listener s); [|reflexivity].
    unfold advance. simpl st. rewrite sync_on_block.
    unfold loop_of. simpl. now rewrite map_app.
  - destruct (close_listener s); reflexivity.
  - simpl pending. rewrite nth_error_map.
    destruct (nth_error ws i) as [w|]; [|reflexivity]. simpl.
    rewrite remove_nth_map.
    apply (advance_listener W w s (remove_nth i ws)).
Qed.

Lemma loop_aloop (W : World) (sch : list Step) (c : St * list Waiting) :
  loop W sch (loop_of W c) = loop_of W (aloop W sch c).
Proof.
  revert c. induction sch as [|x sch IH]; intros c; [reflexivity|].
  change (loop W (x :: sch) (loop_of W c))
    with (loop W sch (step W x (loop_of W c))).
  now rewrite step_astep, IH.
Qed.

Lemma run_aloop (W : World) (sch : list Step) :
  run W sch = loop_of W (aloop W sch (st (boot W), [])).
Proof. unfold run. now rewrite <- loop_aloop. Qed.

(* ---------------------------------------------------------------------- *)
(** ** What the listeners keep *)

Lemma console_only_projections (es : list Effect) :
  Forall (fun e => console_only e = true) es ->
  subscriptions es = 0 /\ blocks_fetched es = [] /\ normal_events es = []
  /\ requests es = [].
Proof.
  induction 1 as [|e es He _ (IH1 & IH2 & IH3 & IH4)]; [auto|].
  destruct e as [r|bn| | |o|c]; try discriminate He.
  destruct o; try discriminate He; auto.
Qed.

Lemma lines_of_Forall (P : Effect -> Prop)
  (f : HistTx -> list Effect * option string) (l : list HistTx) :
  (forall t, Forall P (fst (f t))) -> Forall P (fst (lines_of f l)).
Proof.
  intros H. induction l as [|t l IH]; simpl; [constructor|].
  specialize (H t). destruct (f t) as [es [e|]]; simpl in *; [exact H|].
  destruct (lines_of f l) as [es' e']. simpl in *.
  apply Forall_app. now split.
Qed.

Lemma live_lines_console (t : HistTx) :
  Forall (fun e => console_only e = true) (fst (live_lines t)).
Proof.
  unfold live_lines. destruct (StringToBigInt (h_value t)); repeat constructor.
Qed.

Lemma internal_outcome_console (r : Reply) :
  Forall (fun e => console_only e = true) (internal_outcome r).
Proof.
  destruct r as [d|m]; simpl; [|repeat constructor].
  destruct (refused d); [repeat constructor|].
  pose proof (lines_of_Forall _ live_lines (result_or_empty d)
                live_lines_console) as F.
  destruct (lines_of live_lines (result_or_empty d)) as [es [e|]];
    simpl in *.
  - apply Forall_app. split; [exact F | repeat constructor].
  - now rewrite app_nil_r.
Qed.

Lemma live_normal_projections (W : World) (bn : Z) (txs : list TxEntry) :
  subscriptions (live_normal W bn txs) = 0
  /\ blocks_fetched (live_normal W bn txs) = []
  /\ requests (live_normal W bn txs) = []
  /\ errors_printed (live_normal W bn txs) = []
  /\ internal_events (live_normal W bn txs) = []
  /\ normal_events (live_normal W bn txs)
     = map (pair bn) (filter (touches_watch W) txs).
Proof.
  unfold live_normal.
  induction (filter (touches_watch W) txs)
    as [|x l (I1 & I2 & I3 & I4 & I5 & I6)]; simpl; [auto 7|].
  rewrite I6. auto 7.
Qed.

(** How the arrival of an answer changes the state. *)
Lemma settle_effect (W : World) (w : Waiting) (s : St) :
  exists es,
    trace (fst (settle W w s)) = trace s ++ es
    /\ subscriptions es = 0
    /\ blocks_fetched es = []
    /\ requests es = queries_to_come W [w]
    /\ exited (fst (settle W w s)) = exited s
    /\ block_listener (fst (settle W w s)) = block_listener s
    /\ close_listener (fst (settle W w s)) = close_listener s
    /\ queries_to_come W (snd (settle W w s)) = [].
Proof.
  destruct w as [bn|reply]; simpl; unfold served.
  - destruct (node W bn) as [b|m]; simpl.
    + destruct (live_normal_projections W bn (body b))
        as (L1 & L2 & L3 & _).
      exists (live_normal W bn (body b) ++ [Get (live_request W bn)]).
      rewrite <- app_assoc, subscriptions_app, blocks_fetched_app,
        requests_app, L1, L2, L3.
      repeat split; reflexivity.
    + exists [Print (BlockError m)]. repeat split; reflexivity.
  - destruct (console_only_projections _ (internal_outcome_console reply))
      as (C1 & C2 & _ & C4).
    exists (internal_outcome reply). repeat split; auto.
Qed.

Lemma astep_fields (W : World) (x : Step) (c : St * list Waiting) :
  exited (fst (astep W x c)) = exited (fst c)
  /\ block_listener (fst (astep W x c)) = block_listener (fst c)
  /\ close_listener (fst (astep W x c)) = close_listener (fst c)
  /\ subscriptions (trace (fst (astep W x c)))
     = subscriptions (trace (fst c)).
Proof.
  unfold astep. destruct (exited (fst c)) eqn:E; [auto|].
  destruct x as [[bn|]|i].
  - destruct (block_listener (fst c)) eqn:B; simpl; [|auto].
    rewrite subscriptions_app. simpl. rewrite Nat.add_0_r. auto.
  - destruct (close_listener (fst c)) eqn:C; simpl; [|auto].
    rewrite subscriptions_app. simpl. rewrite Nat.add_0_r. auto.
  - destruct (nth_error (snd c) i) as [w|]; [|auto]. simpl.
    destruct (settle_effect W w (fst c))
      as (es & T & S0 & _ & _ & F1 & F2 & F3 & _).
    rewrite T, subscriptions_app, S0, F1, F2, F3, Nat.add_0_r. auto.
Qed.

Lemma aloop_fields (W : World) (sch : list Step) (c : St * list Waiting) :
  exited (fst (aloop W sch c)) = exited (fst c)
  /\ block_listener (fst (aloop W sch c)) = block_listener (fst c)
  /\ close_listener (fst (aloop W sch c)) = close_listener (fst c)
  /\ subscriptions (trace (fst (aloop W sch c)))
     = subscriptions (trace (fst c)).
Proof.
  revert c. induction sch as [|x sch IH]; intros c; [simpl; auto|].
  change (aloop W (x :: sch) c) with (aloop W sch (astep W x c)).
  destruct (IH (astep W x c)) as (I1 & I2 & I3 & I4).
  destruct (astep_fields W x c) as (A1 & A2 & A3 & A4).
  rewrite I1, I2, I3, I4. auto.
Qed.

(** A loop that is stopped or deaf does nothing. *)
Lemma aloop_exited (W : World) (sch : list Step) (c : St * list Waiting) :
  exited (fst c) <> None -> aloop W sch c = c.
Proof.
  intros H. induction sch as [|x sch IH]; [reflexivity|].
  change (aloop W (x :: sch) c) with (aloop W sch (astep W x c)).
  replace (astep W x c) with c; [exact IH|].
  unfold astep. destruct (exited (fst c)); [reflexivity | contradiction].
Qed.

(** Every delivered block is fetched at once, and nothing else fetches. *)
Lemma aloop_blocks (W : World) (sch : list Step) (c : St * list Waiting) :
  exited (fst c) = None ->
  block_listener (fst c) = true ->
  blocks_fetched (trace (fst (aloop W sch c)))
  = blocks_fetched (trace (fst c)) ++ delivered_blocks sch.
Proof.
  revert c. induction sch as [|x sch IH]; intros c He Hl.
  - simpl. now rewrite app_nil_r.
  - change (aloop W (x :: sch) c) with (aloop W sch (astep W x c)).
    destruct (astep_fields W x c) as (A1 & A2 & _).
    rewrite IH by congruence.
    change (delivered_blocks (x :: sch))
      with (match x with
            | Deliver (NewBlock bn) => [bn]
            | _ => []
            end ++ delivered_blocks sch).
    rewrite app_assoc. f_equal.
    unfold astep. rewrite He.
    destruct x as [[bn|]|i].
    + rewrite Hl. simpl. now rewrite blocks_fetched_app.
    + destruct (close_listener (fst c)); simpl.
      * rewrite blocks_fetched_app. reflexivity.
      * now rewrite app_nil_r.
    + destruct (nth_error (snd c) i) as [w|]; simpl.
      * destruct (settle_effect W w (fst c)) as (es & T & _ & B & _).
        now rewrite T, blocks_fetched_app, B.
      * now rewrite app_nil_r.
Qed.

Lemma remove_nth_perm {A} (i : nat) (l : list A) (x : A) :
  nth_error l i = Some x -> Permutation l (x :: remove_nth i l).
Proof.
  revert l. induction i as [|i IH]; intros [|a l] H; try discriminate H.
  - injection H as ->. reflexivity.
  - change (remove_nth (S i) (a :: l)) with (a :: remove_nth i l).
    apply perm_trans with (a :: x :: remove_nth i l).
    + apply perm_skip, IH, H.
    + apply perm_swap.
Qed.

Lemma queries_to_come_app (W : World) (a b : list Waiting) :
  queries_to_come W (a ++ b) = queries_to_come W a ++ queries_to_come W b.
Proof. apply flat_map_app. Qed.

Lemma queries_to_come_perm (W : World) (a b : list Waiting) :
  Permutation a b -> Permutation (queries_to_come W a) (queries_to_come W b).
Proof. apply Permutation_flat_map. Qed.

(** The queries sent so far, together with those that the listeners waiting
    for a block will send, are the queries of the delivered blocks that the
    node serves, each once. *)
Lemma aloop_requests (W : World) (sch : list Step) (c : St * list Waiting) :
  exited (fst c) = None ->
  block_listener (fst c) = true ->
  exists lr,
    requests (trace (fst (aloop W sch c))) = requests (trace (fst c)) ++ lr
    /\ Permutation
         (lr ++ queries_to_come W (snd (aloop W sch c)))
         (queries_to_come W (snd c)
          ++ map (live_request W) (filter (served W) (delivered_blocks sch))).
Proof.
  revert c. induction sch as [|x sch IH]; intros c He Hl.
  - exists []. simpl. rewrite !app_nil_r. split; reflexivity.
  - change (aloop W (x :: sch) c) with (aloop W sch (astep W x c)).
    destruct (astep_fields W x c) as (A1 & A2 & _).
    destruct (IH (astep W x c)) as (lr & R & P); [congruence | congruence |].
    unfold astep in R, P |- *. rewrite He in R, P |- *.
    destruct x as [[bn|]|i].
    + rewrite Hl in R, P |- *. simpl in R, P.
      exists lr. split.
      * rewrite R, requests_app. simpl. now rewrite app_nil_r.
      * rewrite P, queries_to_come_app. simpl.
        rewrite app_nil_r, <- app_assoc.
        destruct (served W bn); reflexivity.
    + exists lr. destruct (close_listener (fst c)); simpl in R, P.
      * split; [|exact P].
        rewrite R, requests_app. simpl. now rewrite app_nil_r.
      * split; assumption.
    + destruct (nth_error (snd c) i) as [w|] eqn:N; simpl in R, P.
      * destruct (settle_effect W w (fst c))
          as (es & T & _ & _ & Q & _ & _ & _ & Q0).
        exists (queries_to_come W [w] ++ lr). split.
        -- rewrite R, T, requests_app, Q, app_assoc. reflexivity.
        -- rewrite <- app_assoc, P, queries_to_come_app, Q0, app_nil_r.
           rewrite app_assoc. apply Permutation_app_tail.
           rewrite <- queries_to_come_app.
           apply queries_to_come_perm. symmetry.
           now apply (remove_nth_perm i (snd c) w).
      * exists lr. split; assumption.
Qed.

(* ---------------------------------------------------------------------- *)
(** ** Matching against the watched address *)

Lemma WATCH_is_lower (W : World) : toLowerCase (WATCH W) = WATCH W.
Proof. unfold WATCH. apply toLowerCase_idem. Qed.

Lemma config_has_watch (W : World) :
  config_missing W = false -> WATCH W <> "".
Proof.
  unfold config_missing. intros H E.
  rewrite E in H. simpl in H.
  now rewrite orb_true_r in H.
Qed.

Lemma field_matches (W : World) (o : option string) :
  WATCH W <> "" ->
  toLowerCase (or_empty o) = WATCH W
  <-> exists a, o = Some a /\ ci_eq a (WATCH W).
Proof.
  intros NE. split.
  - destruct o as [a|]; simpl; intros H.
    + exists a. split; [reflexivity|].
      apply toLowerCase_ci_eq. now rewrite WATCH_is_lower.
    + now elim NE.
  - intros (a & -> & H). simpl.
    apply toLowerCase_ci_eq in H. now rewrite WATCH_is_lower in H.
Qed.

(** An element that is a transaction object is matched as it should; an
    element that is a hash string never is. *)
Lemma touches_watch_full (W : World) (tx : BlockTx) :
  WATCH W <> "" ->
  touches_watch W (Full tx) = true <-> touches (WATCH W) tx.
Proof.
  intros NE. unfold touches_watch, touches.
  cbn [entry_from entry_to].
  rewrite orb_true_iff, !String.eqb_eq.
  now rewrite !(field_matches W _ NE).
Qed.

Lemma touches_watch_hash (W : World) (h : string) :
  WATCH W <> "" -> touches_watch W (Hash h) = false.
Proof.
  intros NE. unfold touches_watch.
  cbn [entry_from entry_to or_empty toLowerCase].
  assert (E : ("" =? WATCH W) = false).
  { apply String.eqb_neq. intros H. now apply NE. }
  now rewrite E.
Qed.

(* ---------------------------------------------------------------------- *)
(** ** The indexing client *)

(** C4 (as amended): when the status of a response is not ["1"] and its
    message is "No transactions found", [fetchNormalTxs] and
    [fetchInternalTxs] do not raise: they return the [result] list of the
    response, which is the empty batch when the response carries no result
    or an empty one.  Any other response whose status is not ["1"] makes them
    raise an error carrying the message of the response. *)
Theorem C4_no_transactions_found
  (W : World) (a : string) (sb eb off : Z) (s : St) (d : Data) :
  status d <> "1" ->
  (etherscan W (calls s) (list_request W txlist a sb eb off) = Resolved d ->
   (message d = "No transactions found" ->
    fst (exec W (fetchNormalTxs W a sb eb off) s) = Ret (result_or_empty d))
   /\ (message d <> "No transactions found" ->
       fst (exec W (fetchNormalTxs W a sb eb off) s)
       = Throw ("Etherscan normal error: " ++ message d)%string))
  /\ (etherscan W (calls s) (list_request W txlistinternal a sb eb off)
      = Resolved d ->
      (message d = "No transactions found" ->
       fst (exec W (fetchInternalTxs W a sb eb off) s)
       = Ret (result_or_empty d))
      /\ (message d <> "No transactions found" ->
          fst (exec W (fetchInternalTxs W a sb eb off) s)
          = Throw ("Etherscan internal error: " ++ message d)%string))
  /\ (result d = None \/ result d = Some [] -> result_or_empty d = []).
Proof.
  intros Hs.
  assert (R : refused d = negb (message d =? "No transactions found")).
  { unfold refused. apply String.eqb_neq in Hs. now rewrite Hs. }
  repeat split.
  - intros Hm. rewrite fetchNormalTxs_run, H. simpl.
    rewrite R, Hm. reflexivity.
  - intros Hm. rewrite fetchNormalTxs_run, H. simpl.
    apply String.eqb_neq in Hm. rewrite R, Hm. reflexivity.
  - intros Hm. rewrite fetchInternalTxs_run, H. simpl.
    rewrite R, Hm. reflexivity.
  - intros Hm. rewrite fetchInternalTxs_run, H. simpl.
    apply String.eqb_neq in Hm. rewrite R, Hm. reflexivity.
  - unfold result_or_empty. intros [-> | ->]; reflexivity.
Qed.

(** The amended C4 at the response of the specification's test: status
    ["0"], "No transactions found", an empty result. *)
Lemma C4_no_transactions_found_witness :
  status (mkData "0" "No transactions found" (Some [])) <> "1"
  /\ fst (exec bodiless_world
            (fetchNormalTxs bodiless_world "0xabc" 0 99999999 10000) init)
     = Ret []
  /\ fst (exec bodiless_world
            (fetchInternalTxs bodiless_world "0xabc" 0 99999999 10000) init)
     = Ret [].
Proof.
  assert (Hs : status (mkData "0" "No transactions found" (Some [])) <> "1")
    by discriminate.
  destruct (C4_no_transactions_found bodiless_world "0xabc" 0 99999999 10000
              init _ Hs) as (N & I & _).
  split; [exact Hs|].
  split.
  - exact (proj1 (N eq_refl) eq_refl).
  - exact (proj1 (I eq_refl) eq_refl).
Defined.

(** C4 as stated fails: the response says "No transactions found" with
    status ["0"] and carries one record; both fetchers return that record,
    not the empty batch. *)
Lemma C4_nonempty_result_is_returned :
  etherscan odd_world 0
    (list_request odd_world txlist (WATCH odd_world) 0 99999999 10000)
  = Resolved (mkData "0" "No transactions found" (Some [hist "0xa1" "10"]))
  /\ fst (exec odd_world
            (fetchNormalTxs odd_world (WATCH odd_world) 0 99999999 10000)
            init)
     = Ret [hist "0xa1" "10"]
  /\ fst (exec odd_world
            (fetchNormalTxs odd_world (WATCH odd_world) 0 99999999 10000)
            init)
     <> Ret []
  /\ fst (exec odd_world
            (fetchInternalTxs odd_world (WATCH odd_world) 0 99999999 10000)
            init)
     <> Ret [].
Proof. repeat split; try reflexivity; discriminate. Qed.

(** C6 (as amended): each fetcher sends exactly one request, for page ["1"]
    with the page size it was given, and what it returns is the result of
    that one page; nothing is requested beyond it. *)
Theorem C6_one_request_for_page_one
  (W : World) (a : string) (sb eb off : Z) (s : St) :
  page (list_request W txlist a sb eb off) = "1"
  /\ page (list_request W txlistinternal a sb eb off) = "1"
  /\ requests (trace (snd (exec W (fetchNormalTxs W a sb eb off) s)))
     = requests (trace s) ++ [list_request W txlist a sb eb off]
  /\ requests (trace (snd (exec W (fetchInternalTxs W a sb eb off) s)))
     = requests (trace s) ++ [list_request W txlistinternal a sb eb off]
  /\ (forall l, fst (exec W (fetchNormalTxs W a sb eb off) s) = Ret l ->
      exists d,
        etherscan W (calls s) (list_request W txlist a sb eb off) = Resolved d
        /\ l = result_or_empty d)
  /\ (forall l, fst (exec W (fetchInternalTxs W a sb eb off) s) = Ret l ->
      exists d,
        etherscan W (calls s) (list_request W txlistinternal a sb eb off)
        = Resolved d
        /\ l = result_or_empty d).
Proof.
  rewrite fetchNormalTxs_run, fetchInternalTxs_run. simpl.
  rewrite !requests_app. simpl.
  repeat split; try reflexivity; intros l H.
  - destruct (etherscan W (calls s) _) as [d|m]; [|discriminate].
    destruct (refused d); [discriminate|].
    exists d. split; congruence.
  - destruct (etherscan W (calls s) _) as [d|m]; [|discriminate].
    destruct (refused d); [discriminate|].
    exists d. split; congruence.
Qed.

(** C6 as stated fails: the indexer holds three records and the page size is
    two.  The first page comes back full, the fetchers return it after their
    single request, and the record of the second page is missing. *)
Lemma C6_second_page_is_never_requested :
  fst (exec paged_world (fetchNormalTxs paged_world "0xabc" 0 99999999 2)
         init)
  = Ret [hist "0xa1" "10"; hist "0xa2" "11"]
  /\ requests (trace (snd (exec paged_world
                             (fetchNormalTxs paged_world "0xabc" 0 99999999 2)
                             init)))
     = [mkRequest txlist "0xabc" 0 99999999 "1" 2 "asc" "KEY"]
  /\ etherscan paged_world 1
       (mkRequest txlist "0xabc" 0 99999999 "2" 2 "asc" "KEY")
     = found [hist "0xa3" "12"]
  /\ ~ In (hist "0xa3" "12") [hist "0xa1" "10"; hist "0xa2" "11"]
  /\ fst (exec paged_world
            (fetchInternalTxs paged_world "0xabc" 0 99999999 2) init)
     = Ret [hist "0xa1" "10"; hist "0xa2" "11"]
  /\ requests (trace (snd (exec paged_world
                             (fetchInternalTxs paged_world "0xabc"
                                0 99999999 2) init)))
     = [mkRequest txlistinternal "0xabc" 0 99999999 "1" 2 "asc" "KEY"].
Proof.
  repeat split; try reflexivity.
  intros [H | [H | []]]; discriminate H.
Qed.

(* ---------------------------------------------------------------------- *)
(** ** The live tailer *)

Lemma no_hash_touches (W : World) (txs : list BlockTx) :
  WATCH W <> "" ->
  filter (touches_watch W) (map (fun tx => Hash (tx_hash tx)) txs) = [].
Proof.
  intros NE. induction txs as [|tx txs IH]; simpl; [reflexivity|].
  now rewrite touches_watch_hash.
Qed.

(** C5 (a defect of the code): the claim says that the transactions of a
    block whose [from] or [to] is the watched address are emitted as Normal
    events.  The provider resolves [getBlock(bn, true)] with a block whose
    [transactions] are hash strings; [handleBlock] reads [from] and [to] on
    them, finds neither, and prints no Normal event, whatever transactions
    the block holds. *)
Theorem C5_hashes_never_match
  (W : World) (bn : Z) (txs : list BlockTx) (s : St) :
  config_missing W = false ->
  node W bn = BlockIs (Some (ethers_v6_block txs)) ->
  fst (exec W (handleBlock W bn) s) = Ret tt
  /\ normal_events (trace (snd (exec W (handleBlock W bn) s)))
     = normal_events (trace s).
Proof.
  intros Hc Hn. rewrite handleBlock_run, Hn. cbv zeta. split; [reflexivity|].
  simpl body. unfold live_normal.
  rewrite no_hash_touches by now apply config_has_watch.
  destruct (console_only_projections _
              (internal_outcome_console
                 (etherscan W (calls s) (live_request W bn))))
    as (_ & _ & Q & _).
  simpl. rewrite !normal_events_app, Q. simpl. now rewrite !app_nil_r.
Qed.

(** C5 at its failing input: block 10 of [handoff_world] holds [0xa1], which
    pays the watched account, and no Normal event is printed for it. *)
Lemma C5_hashes_never_match_witness :
  touches (WATCH handoff_world) tx_a1
  /\ config_missing handoff_world = false
  /\ node handoff_world 10
     = BlockIs (Some (ethers_v6_block [tx_a1; tx_b2]))
  /\ normal_events
       (trace (snd (exec handoff_world (handleBlock handoff_world 10) init)))
     = [].
Proof.
  split.
  - right. exists watched. split; [reflexivity|].
    apply toLowerCase_ci_eq. reflexivity.
  - split; [reflexivity|]. split; [reflexivity|].
    apply (C5_hashes_never_match handoff_world 10 [tx_a1; tx_b2] init);
      reflexivity.
Defined.

(** C10: when the node answers block [bn] with null, or with a block that
    has no transaction list, [handleBlock] returns without raising, prints no
    Normal event, and still sends the internal-transaction query for the
    range [bn, bn]. *)
Theorem C10_block_without_body (W : World) (bn : Z) (s : St) :
  node W bn = BlockIs None \/ node W bn = BlockIs (Some (mkBlock None)) ->
  fst (exec W (handleBlock W bn) s) = Ret tt
  /\ normal_events (trace (snd (exec W (handleBlock W bn) s)))
     = normal_events (trace s)
  /\ trace (snd (exec W (handleBlock W bn) s))
     = trace s
       ++ GetBlock bn
       :: Get (list_request W txlistinternal (WATCH W) bn bn 1000)
       :: internal_outcome
            (etherscan W (calls s)
               (list_request W txlistinternal (WATCH W) bn bn 1000)).
Proof.
  intros H.
  assert (E : exists b, node W bn = BlockIs b /\ body b = []).
  { destruct H as [H | H]; rewrite H; eexists; split; reflexivity. }
  destruct E as (b & Hn & Hb).
  rewrite handleBlock_run, Hn. cbv zeta. rewrite Hb.
  destruct (console_only_projections _
              (internal_outcome_console
                 (etherscan W (calls s) (live_request W bn))))
    as (_ & _ & Q & _).
  repeat split.
  - simpl. rewrite !normal_events_app, Q. simpl. now rewrite !app_nil_r.
  - simpl. rewrite <- !app_assoc. reflexivity.
Qed.

(** C10 at [bodiless_world], whose block 7 is null and whose block 8 has no
    transaction list. *)
Lemma C10_block_without_body_witness :
  (node bodiless_world 7 = BlockIs None
   /\ fst (exec bodiless_world (handleBlock bodiless_world 7) init) = Ret tt
   /\ trace (snd (exec bodiless_world (handleBlock bodiless_world 7) init))
      = [GetBlock 7;
         Get (list_request bodiless_world txlistinternal
                (WATCH bodiless_world) 7 7 1000)])
  /\ (node bodiless_world 8 = BlockIs (Some (mkBlock None))
      /\ fst (exec bodiless_world (handleBlock bodiless_world 8) init)
         = Ret tt
      /\ normal_events
           (trace (snd (exec bodiless_world (handleBlock bodiless_world 8)
                          init))) = []).
Proof.
  split.
  - destruct (C10_block_without_body bodiless_world 7 init
                (or_introl eq_refl)) as (R & _ & T).
    split; [reflexivity|]. split; [exact R | exact T].
  - destruct (C10_block_without_body bodiless_world 8 init
                (or_intror eq_refl)) as (R & N & _).
    split; [reflexivity|]. split; [exact R | exact N].
Defined.

Lemma internal_outcome_error (r : Reply) (e : string) :
  fetch_error "Etherscan internal error: " r = Some e ->
  internal_outcome r = [Print (InternalFetchError e)].
Proof.
  destruct r as [d|m]; simpl.
  - destruct (refused d); [|discriminate]. now intros [= <-].
  - now intros [= <-].
Qed.

(** C3 (as amended): when the internal-transaction fetch of a delivered
    block [bn] fails (the request is rejected, or the response is refused by
    the guard), the error is caught inside [handleBlock] and printed, after
    the pass over the transactions of the block has run; [handleBlock]
    returns normally, the process does not exit and the block listener stays
    registered.  In the event loop, the arrival of such a reply prints this
    one line and touches no other listener.  The script keeps no cursor. *)
Theorem C3_internal_failure_is_isolated
  (W : World) (bn : Z) (b : option Block) (e : string) (s : St) :
  node W bn = BlockIs b ->
  fetch_error "Etherscan internal error: "
    (etherscan W (calls s) (live_request W bn)) = Some e ->
  fst (exec W (handleBlock W bn) s) = Ret tt
  /\ fst (exec W (on_block W bn) s) = Ret tt
  /\ trace (snd (exec W (on_block W bn) s))
     = trace s
       ++ GetBlock bn :: live_normal W bn (body b)
       ++ [Get (live_request W bn); Print (InternalFetchError e)]
  /\ exited (snd (exec W (on_block W bn) s)) = exited s
  /\ block_listener (snd (exec W (on_block W bn) s)) = block_listener s
  /\ (forall (l : Loop) (i : nat),
      exited (st l) = None ->
      nth_error (pending l) i
      = Some (after_reply (etherscan W (calls s) (live_request W bn))) ->
      step W (Settle i) l
      = mkLoop (record [Print (InternalFetchError e)] (st l))
               (remove_nth i (pending l))).
Proof.
  intros Hn Hf.
  rewrite on_block_run, handleBlock_run, Hn. cbv zeta.
  rewrite (internal_outcome_error _ e Hf). simpl.
  repeat split.
  - rewrite <- !app_assoc. reflexivity.
  - intros l i He Hi. unfold step. rewrite He, Hi. unfold advance.
    simpl st. rewrite sync_after_reply.
    now rewrite (internal_outcome_error _ e Hf).
Qed.

(** The amended C3 at [flaky_world], where the indexer rejects every live
    request. *)
Lemma C3_internal_failure_is_isolated_witness :
  node flaky_world 7 = BlockIs (Some (ethers_v6_block [tx_a1; tx_b2]))
  /\ fetch_error "Etherscan internal error: "
       (etherscan flaky_world 2 (live_request flaky_world 7))
     = Some "Request failed with status code 429"
  /\ trace (snd (exec flaky_world (on_block flaky_world 7)
                   (st (boot flaky_world))))
     = trace (st (boot flaky_world))
       ++ [GetBlock 7; Get (live_request flaky_world 7);
           Print (InternalFetchError "Request failed with status code 429")]
  /\ block_listener (snd (exec flaky_world (on_block flaky_world 7)
                            (st (boot flaky_world))))
     = true.
Proof.
  destruct (C3_internal_failure_is_isolated flaky_world 7
              (Some (ethers_v6_block [tx_a1; tx_b2]))
              "Request failed with status code 429" (st (boot flaky_world))
              eq_refl eq_refl) as (_ & _ & T & _ & L & _).
  split; [reflexivity|]. split; [reflexivity|]. split; [exact T | exact L].
Defined.

(** C3 as stated fails on its cursor: in [flaky_world] block 7 is handled
    while its internal fetch fails; when block 7 is delivered again it is
    fetched again, its internal query is sent again and fails again.  No
    cursor standing at 7 holds the second delivery back. *)
Lemma C3_no_cursor_after_failure :
  fetch_error "Etherscan internal error: "
    (etherscan flaky_world 2 (live_request flaky_world 7))
  = Some "Request failed with status code 429"
  /\ blocks_fetched
       (trace (st (run flaky_world
                     [Deliver (NewBlock 7); Settle 0; Settle 0;
                      Deliver (NewBlock 7); Settle 0; Settle 0])))
     = [7%Z; 7%Z]
  /\ errors_printed
       (trace (st (run flaky_world
                     [Deliver (NewBlock 7); Settle 0; Settle 0;
                      Deliver (NewBlock 7); Settle 0; Settle 0])))
     = ["Request failed with status code 429";
        "Request failed with status code 429"]
  /\ skipn 2
       (requests
          (trace (st (run flaky_world
                        [Deliver (NewBlock 7); Settle 0; Settle 0;
                         Deliver (NewBlock 7); Settle 0; Settle 0]))))
     = [live_request flaky_world 7; live_request flaky_world 7].
Proof. repeat split; reflexivity. Qed.

(* ---------------------------------------------------------------------- *)
(** ** The engine: history, then live *)

Lemma st_run (W : World) (sch : list Step) :
  st (run W sch) = fst (aloop W sch (st (boot W), [])).
Proof. now rewrite run_aloop. Qed.

Lemma pending_run (W : World) (sch : list Step) :
  pending (run W sch)
  = map (listener_of W) (snd (aloop W sch (st (boot W), []))).
Proof. now rewrite run_aloop. Qed.

(** C1 (as amended): the script keeps no cursor.  Once the history pass has
    completed, [getBlock] is called for every block number that the
    subscription delivers, at the moment of the delivery: once per delivery,
    in the order delivered, whatever blocks the history covered and whichever
    listeners are still waiting.  A delivered block at or below the highest
    block of the history is therefore fetched like any other, and a block
    that is not delivered is never fetched. *)
Theorem C1_every_delivery_is_fetched (W : World) (sch : list Step) :
  config_missing W = false ->
  fst (exec W (printHistory W (WATCH W)) init) = Ret tt ->
  blocks_fetched (trace (st (run W sch))) = delivered_blocks sch.
Proof.
  intros Hc Hh.
  destruct (script_started W Hc Hh) as (S1 & S2 & _ & S4 & _).
  rewrite st_run, aloop_blocks by assumption.
  cbn [fst]. now rewrite S4.
Qed.

(** The amended C1 at [handoff_world]: blocks 12, 10 and 12 are delivered
    while earlier listeners still wait, although the history went up to
    block 10. *)
Lemma C1_every_delivery_is_fetched_witness :
  config_missing handoff_world = false
  /\ fst (exec handoff_world
            (printHistory handoff_world (WATCH handoff_world)) init) = Ret tt
  /\ blocks_fetched
       (trace (st (run handoff_world
                     [Deliver (NewBlock 12); Deliver (NewBlock 10); Settle 1;
                      Deliver (NewBlock 12); Settle 0])))
     = [12%Z; 10%Z; 12%Z].
Proof.
  split; [reflexivity|]. split; [reflexivity|].
  apply (C1_every_delivery_is_fetched handoff_world
           [Deliver (NewBlock 12); Deliver (NewBlock 10); Settle 1;
            Deliver (NewBlock 12); Settle 0]); reflexivity.
Defined.

(** C1 as stated fails: in [handoff_world] the history lists transaction
    [0xa1] of block 10 and the internal transfer it made, so the hand-off
    block is 10; the subscription then delivers block 10, which is fetched
    and queried, and the internal transfer is printed a second time. *)
Lemma C1_handoff_block_is_processed_again :
  emitted Internal "0xa1" (trace (st (run handoff_world []))) = 1
  /\ blocks_fetched
       (trace (st (run handoff_world
                     [Deliver (NewBlock 10); Settle 0; Settle 0])))
     = [10%Z]
  /\ emitted Internal "0xa1"
       (trace (st (run handoff_world
                     [Deliver (NewBlock 10); Settle 0; Settle 0])))
     = 2
  /\ ~ exactly_once Internal "0xa1"
         (trace (st (run handoff_world
                       [Deliver (NewBlock 10); Settle 0; Settle 0]))).
Proof.
  repeat split; try reflexivity. unfold exactly_once. discriminate.
Qed.

(** C2 (as amended): when the history pass raises, the script reports the
    error as fatal and exits with code 1; no listener is registered, no block
    is fetched, and whatever the subscription would deliver is ignored. *)
Theorem C2_backfill_failure_is_fatal
  (W : World) (e : string) (sch : list Step) :
  config_missing W = false ->
  fst (exec W (printHistory W (WATCH W)) init) = Throw e ->
  exited (st (run W sch)) = Some 1%Z
  /\ trace (st (run W sch))
     = trace (snd (exec W (printHistory W (WATCH W)) init))
       ++ [Print (Fatal e); Exit 1]
  /\ block_listener (st (run W sch)) = false
  /\ subscriptions (trace (st (run W sch))) = 0
  /\ blocks_fetched (trace (st (run W sch))) = [].
Proof.
  intros Hc Hh.
  destruct (script_failed W e Hc Hh) as (F1 & F2 & _ & F4 & F5 & F6).
  rewrite st_run, aloop_exited; [|cbn [fst]; rewrite F1; discriminate].
  cbn [fst]. repeat split; assumption.
Qed.

(** The amended C2 at [down_world], whose indexer is unreachable. *)
Lemma C2_backfill_failure_is_fatal_witness :
  config_missing down_world = false
  /\ fst (exec down_world (printHistory down_world (WATCH down_world)) init)
     = Throw "Request failed with status code 503"
  /\ exited (st (run down_world [Deliver (NewBlock 10); Settle 0]))
     = Some 1%Z
  /\ blocks_fetched
       (trace (st (run down_world [Deliver (NewBlock 10); Settle 0]))) = [].
Proof.
  destruct (C2_backfill_failure_is_fatal down_world
              "Request failed with status code 503"
              [Deliver (NewBlock 10); Settle 0]
              eq_refl eq_refl) as (E & _ & _ & _ & B).
  split; [reflexivity|]. split; [reflexivity|]. split; [exact E | exact B].
Defined.

(** C2 as stated fails: in [down_world] the first history request is
    rejected; the script prints the fatal error and exits with code 1 without
    registering the block listener, and block 10, delivered afterwards, is
    never fetched. *)
Lemma C2_live_tailing_never_starts :
  trace (st (run down_world [Deliver (NewBlock 10)]))
  = [Print (FetchingNormal (WATCH down_world));
     Get (list_request down_world txlist (WATCH down_world) 0 99999999 10000);
     Print (Fatal "Request failed with status code 503");
     Exit 1]
  /\ exited (st (run down_world [Deliver (NewBlock 10)])) = Some 1%Z
  /\ block_listener (st (run down_world [Deliver (NewBlock 10)])) = false
  /\ subscriptions (trace (st (run down_world [Deliver (NewBlock 10)]))) = 0.
Proof. repeat split; reflexivity. Qed.

Lemma requests_console (es : list Effect) :
  Forall (fun e => console_only e = true) es -> requests es = [].
Proof. intros H. now apply console_only_projections. Qed.

Lemma normal_lines_console (W : World) (t : HistTx) :
  Forall (fun e => console_only e = true) (fst (normal_lines W t)).
Proof.
  unfold normal_lines. destruct (valid_time W (h_timeStamp t));
    [|repeat constructor].
  destruct (StringToBigInt (h_value t)); [|repeat constructor].
  destruct (input_prefix t); repeat constructor.
Qed.

Lemma internal_lines_console (W : World) (t : HistTx) :
  Forall (fun e => console_only e = true) (fst (internal_lines W t)).
Proof.
  unfold internal_lines. destruct (valid_time W (h_timeStamp t));
    [|repeat constructor].
  destruct (StringToBigInt (h_value t)); repeat constructor.
Qed.

(** C7 (as amended): a failed history fetch is not retried.  When the answer
    to the normal-transaction request is a failure (the request is rejected
    or the response is refused by the guard, a rate-limit response
    included), [printHistory] raises that error after this single request;
    when the normal fetch succeeds and the internal fetch fails, it raises
    that error after these two requests, unless printing a normal record has
    raised before, after the first request alone.  No request is sent a
    second time. *)
Theorem C7_failed_fetch_is_not_retried
  (W : World) (addr e : string) (s : St) :
  (fetch_error "Etherscan normal error: "
     (etherscan W (calls s) (list_request W txlist addr 0 99999999 10000))
   = Some e ->
   fst (exec W (printHistory W addr) s) = Throw e
   /\ requests (trace (snd (exec W (printHistory W addr) s)))
      = requests (trace s) ++ [list_request W txlist addr 0 99999999 10000])
  /\ (fetch_error "Etherscan normal error: "
        (etherscan W (calls s) (list_request W txlist addr 0 99999999 10000))
      = None ->
      fetch_error "Etherscan internal error: "
        (etherscan W (S (calls s))
           (list_request W txlistinternal addr 0 99999999 10000))
      = Some e ->
      match snd (lines_of (normal_lines W)
                   (slice_last 5
                      (batch (etherscan W (calls s)
                                (list_request W txlist addr
                                   0 99999999 10000))))) with
      | None =>
          fst (exec W (printHistory W addr) s) = Throw e
          /\ requests (trace (snd (exec W (printHistory W addr) s)))
             = requests (trace s)
               ++ [list_request W txlist addr 0 99999999 10000;
                   list_request W txlistinternal addr 0 99999999 10000]
      | Some e' =>
          fst (exec W (printHistory W addr) s) = Throw e'
          /\ requests (trace (snd (exec W (printHistory W addr) s)))
             = requests (trace s)
               ++ [list_request W txlist addr 0 99999999 10000]
      end).
Proof.
  rewrite printHistory_run. cbv zeta. split.
  - intros H.
    destruct (etherscan W (calls s) _) as [dN|m]; simpl in H.
    + destruct (refused dN); [|discriminate]. injection H as <-. simpl.
      rewrite !requests_app. simpl. now rewrite app_nil_r.
    + injection H as <-. simpl.
      rewrite !requests_app. simpl. now rewrite app_nil_r.
  - intros HN HI.
    destruct (etherscan W (calls s) _) as [dN|m]; [|discriminate HN].
    simpl in HN. cbn [batch]. destruct (refused dN); [discriminate HN|].
    pose proof (requests_console _
                  (lines_of_Forall _ (normal_lines W)
                     (slice_last 5 (result_or_empty dN))
                     (normal_lines_console W))) as RQ.
    destruct (snd (lines_of (normal_lines W)
                     (slice_last 5 (result_or_empty dN)))) as [e'|].
    { split; [reflexivity|]. cbn [snd]. simpl trace.
      change (Print (FoundNormal (length (result_or_empty dN)))
              :: fst (lines_of (normal_lines W)
                        (slice_last 5 (result_or_empty dN))))
        with ([Print (FoundNormal (length (result_or_empty dN)))]
              ++ fst (lines_of (normal_lines W)
                        (slice_last 5 (result_or_empty dN)))).
      rewrite !requests_app, RQ. simpl. now rewrite !app_nil_r. }
    assert (G : requests
                  (trace
                     (sent (list_request W txlistinternal addr 0 99999999 10000)
                        (record
                           (Print (FoundNormal (length (result_or_empty dN)))
                            :: fst (lines_of (normal_lines W)
                                      (slice_last 5 (result_or_empty dN)))
                            ++ [Print (FetchingInternal addr)])
                           (sent (list_request W txlist addr 0 99999999 10000)
                              (record [Print (FetchingNormal addr)] s)))))
                = requests (trace s)
                  ++ [list_request W txlist addr 0 99999999 10000;
                      list_request W txlistinternal addr 0 99999999 10000]).
    { simpl.
      change (Print (FoundNormal (length (result_or_empty dN)))
              :: fst (lines_of (normal_lines W)
                        (slice_last 5 (result_or_empty dN)))
              ++ [Print (FetchingInternal addr)])
        with ([Print (FoundNormal (length (result_or_empty dN)))]
              ++ fst (lines_of (normal_lines W)
                        (slice_last 5 (result_or_empty dN)))
              ++ [Print (FetchingInternal addr)]).
      rewrite !requests_app, RQ. simpl.
      now rewrite !app_nil_r, <- app_assoc. }
    destruct (etherscan W (S (calls s)) _) as [dI|m]; simpl in HI.
    + destruct (refused dI); [|discriminate]. injection HI as <-.
      split; [reflexivity | exact G].
    + injection HI as <-. split; [reflexivity | exact G].
Qed.

(** The amended C7 at [throttled_world]: the first answer is a rate-limit
    response and the history pass raises after one request. *)
Lemma C7_failed_fetch_is_not_retried_witness :
  fetch_error "Etherscan normal error: "
    (etherscan throttled_world 0
       (list_request throttled_world txlist (WATCH throttled_world)
          0 99999999 10000))
  = Some "Etherscan normal error: NOTOK"
  /\ fst (exec throttled_world
            (printHistory throttled_world (WATCH throttled_world)) init)
     = Throw "Etherscan normal error: NOTOK"
  /\ requests (trace (snd (exec throttled_world
                             (printHistory throttled_world
                                (WATCH throttled_world)) init)))
     = [list_request throttled_world txlist (WATCH throttled_world)
          0 99999999 10000].
Proof.
  split; [reflexivity|].
  apply (proj1 (C7_failed_fetch_is_not_retried throttled_world
                  (WATCH throttled_world) "Etherscan normal error: NOTOK"
                  init)).
  reflexivity.
Defined.

(** C7 as stated fails: in [throttled_world] the indexer is over its rate
    for the first two requests and would serve the third.  The script sends
    one request, reports the rate-limit error as fatal and exits with
    code 1. *)
Lemma C7_rate_limit_ends_the_run :
  etherscan throttled_world 2
    (list_request throttled_world txlist (WATCH throttled_world)
       0 99999999 10000)
  = found [hist "0xa1" "10"]
  /\ trace (st (run throttled_world []))
     = [Print (FetchingNormal (WATCH throttled_world));
        Get (list_request throttled_world txlist (WATCH throttled_world)
               0 99999999 10000);
        Print (Fatal "Etherscan normal error: NOTOK");
        Exit 1]
  /\ calls (st (run throttled_world [])) = 1
  /\ exited (st (run throttled_world [])) = Some 1%Z.
Proof. repeat split; reflexivity. Qed.

(** C8 (as amended): when the subscription reports a disconnect, the script
    prints the "WebSocket closed" notice if the close listener was registered
    and nothing otherwise; it neither exits nor registers the block listener
    again, then or on any later move of the event loop: the number of
    subscriptions made never changes once the event loop runs. *)
Theorem C8_disconnect_is_only_logged
  (W : World) (sch : list Step) (l : Loop) (c : St * list Waiting) :
  trace (st (step W (Deliver Closed) l))
  = trace (st l)
    ++ (if close_listener (st l)
        then match exited (st l) with
             | None => [Print WsClosed]
             | Some _ => []
             end
        else [])
  /\ exited (st (step W (Deliver Closed) l)) = exited (st l)
  /\ calls (st (step W (Deliver Closed) l)) = calls (st l)
  /\ pending (step W (Deliver Closed) l) = pending l
  /\ subscriptions (trace (st (loop W sch (loop_of W c))))
     = subscriptions (trace (fst c)).
Proof.
  split; [|split; [|split; [|split]]].
  - unfold step.
    destruct (exited (st l)), (close_listener (st l)); simpl;
      now rewrite ?app_nil_r.
  - unfold step.
    destruct (exited (st l)) eqn:E, (close_listener (st l)); simpl;
      congruence.
  - unfold step.
    destruct (exited (st l)), (close_listener (st l)); reflexivity.
  - unfold step.
    destruct (exited (st l)), (close_listener (st l)); reflexivity.
  - rewrite loop_aloop. cbn [st loop_of]. apply aloop_fields.
Qed.

(** C8 as stated fails: in [handoff_world] the block listener is registered
    once, then the socket closes.  Nothing happens: the process stays up and
    the listener is not registered a second time. *)
Lemma C8_no_resubscription_after_close :
  subscriptions (trace (st (run handoff_world []))) = 1
  /\ run handoff_world [Deliver Closed] = run handoff_world []
  /\ subscriptions
       (trace (st (run handoff_world
                     [Deliver Closed; Deliver (NewBlock 11); Settle 0;
                      Settle 0]))) = 1
  /\ exited (st (run handoff_world [Deliver Closed])) = None.
Proof. repeat split; reflexivity. Qed.

(* ---------------------------------------------------------------------- *)
(** ** The history pass in detail *)

Lemma lines_of_flat_map {B} (h : Effect -> list B)
  (f : HistTx -> list Effect * option string) (g : HistTx -> list B)
  (l : list HistTx) :
  (forall t, snd (f t) = None -> flat_map h (fst (f t)) = g t) ->
  snd (lines_of f l) = None ->
  flat_map h (fst (lines_of f l)) = flat_map g l.
Proof.
  intros H. induction l as [|t l IH]; simpl; [reflexivity|].
  specialize (H t). destruct (f t) as [es [e|]]; simpl in *; [discriminate|].
  destruct (lines_of f l) as [es' e']. simpl in *. intros ->.
  now rewrite flat_map_app, H, IH.
Qed.

Lemma flat_map_unit {A} (l : list A) : flat_map (fun x => [x]) l = l.
Proof. induction l as [|x l IH]; simpl; [reflexivity | now rewrite IH]. Qed.

Lemma flat_map_none {A B} (l : list A) : flat_map (fun _ => @nil B) l = [].
Proof. induction l as [|x l IH]; simpl; auto. Qed.

Lemma normal_lines_printed (W : World) (t : HistTx) :
  snd (normal_lines W t) = None ->
  history_printed (fst (normal_lines W t)) = [t]
  /\ counts_printed (fst (normal_lines W t)) = [].
Proof.
  unfold normal_lines. destruct (valid_time W (h_timeStamp t));
    [|discriminate].
  destruct (StringToBigInt (h_value t)); [|discriminate].
  destruct (input_prefix t); auto.
Qed.

Lemma internal_lines_printed (W : World) (t : HistTx) :
  snd (internal_lines W t) = None ->
  history_printed (fst (internal_lines W t)) = [t]
  /\ counts_printed (fst (internal_lines W t)) = [].
Proof.
  unfold internal_lines. destruct (valid_time W (h_timeStamp t));
    [|discriminate].
  destruct (StringToBigInt (h_value t)); [|discriminate]. auto.
Qed.

Lemma shown_normal (W : World) (l : list HistTx) :
  snd (lines_of (normal_lines W) l) = None ->
  history_printed (fst (lines_of (normal_lines W) l)) = l
  /\ counts_printed (fst (lines_of (normal_lines W) l)) = [].
Proof.
  intros H. split.
  - unfold history_printed.
    rewrite (lines_of_flat_map _ _ (fun t => [t])); auto using flat_map_unit.
    intros t Ht. now apply normal_lines_printed.
  - unfold counts_printed.
    rewrite (lines_of_flat_map _ _ (fun _ => [])); auto using flat_map_none.
    intros t Ht. now apply normal_lines_printed.
Qed.

Lemma shown_internal (W : World) (l : list HistTx) :
  snd (lines_of (internal_lines W) l) = None ->
  history_printed (fst (lines_of (internal_lines W) l)) = l
  /\ counts_printed (fst (lines_of (internal_lines W) l)) = [].
Proof.
  intros H. split.
  - unfold history_printed.
    rewrite (lines_of_flat_map _ _ (fun t => [t])); auto using flat_map_unit.
    intros t Ht. now apply internal_lines_printed.
  - unfold counts_printed.
    rewrite (lines_of_flat_map _ _ (fun _ => [])); auto using flat_map_none.
    intros t Ht. now apply internal_lines_printed.
Qed.

(** The whole trace of a history pass whose two fetches succeed and whose
    records print without error. *)
Lemma printHistory_success (W : World) (a : string) (s : St) (dN dI : Data) :
  etherscan W (calls s) (list_request W txlist a 0 99999999 10000)
  = Resolved dN ->
  refused dN = false ->
  etherscan W (S (calls s)) (list_request W txlistinternal a 0 99999999 10000)
  = Resolved dI ->
  refused dI = false ->
  snd (lines_of (normal_lines W) (slice_last 5 (result_or_empty dN))) = None ->
  snd (lines_of (internal_lines W) (slice_last 5 (result_or_empty dI)))
  = None ->
  fst (exec W (printHistory W a) s) = Ret tt
  /\ trace (snd (exec W (printHistory W a) s))
     = trace s
       ++ [Print (FetchingNormal a);
           Get (list_request W txlist a 0 99999999 10000);
           Print (FoundNormal (length (result_or_empty dN)))]
       ++ fst (lines_of (normal_lines W) (slice_last 5 (result_or_empty dN)))
       ++ [Print (FetchingInternal a);
           Get (list_request W txlistinternal a 0 99999999 10000);
           Print (FoundInternal (length (result_or_empty dI)))]
       ++ fst (lines_of (internal_lines W)
                 (slice_last 5 (result_or_empty dI))).
Proof.
  intros HN RN HI RI LN LI. rewrite printHistory_run. cbv zeta.
  rewrite HN, RN, LN, HI, RI, LI. simpl.
  split; [reflexivity|].
  rewrite <- !app_assoc. simpl. rewrite <- !app_assoc. reflexivity.
Qed.

(** C9 (as amended): when both history fetches succeed and the records to
    print raise no error (each has a valid time and a value that [BigInt]
    accepts), [printHistory] prints the last five normal records and then
    the last five internal records of the responses, as two groups, each in
    the order the indexer returned it; records before the last five are
    counted but not printed, and the two groups are not merged. *)
Theorem C9_history_prints_the_last_five_of_each
  (W : World) (addr : string) (s : St) (dN dI : Data) :
  etherscan W (calls s) (list_request W txlist addr 0 99999999 10000)
  = Resolved dN ->
  refused dN = false ->
  etherscan W (S (calls s))
    (list_request W txlistinternal addr 0 99999999 10000)
  = Resolved dI ->
  refused dI = false ->
  snd (lines_of (normal_lines W) (slice_last 5 (result_or_empty dN))) = None ->
  snd (lines_of (internal_lines W) (slice_last 5 (result_or_empty dI)))
  = None ->
  fst (exec W (printHistory W addr) s) = Ret tt
  /\ history_printed (trace (snd (exec W (printHistory W addr) s)))
     = history_printed (trace s)
       ++ slice_last 5 (result_or_empty dN)
       ++ slice_last 5 (result_or_empty dI).
Proof.
  intros HN RN HI RI LN LI.
  destruct (printHistory_success W addr s dN dI HN RN HI RI LN LI)
    as (R & T).
  split; [exact R|]. rewrite T.
  rewrite !history_printed_app.
  rewrite (proj1 (shown_normal W _ LN)), (proj1 (shown_internal W _ LI)).
  reflexivity.
Qed.

(** The amended C9 at [long_world]: six normal records and one internal
    record; the first normal record is not printed. *)
Lemma C9_history_prints_the_last_five_of_each_witness :
  refused (mkData "1" "OK" (Some six_normal)) = false
  /\ snd (lines_of (normal_lines long_world) (slice_last 5 six_normal))
     = None
  /\ fst (exec long_world (printHistory long_world (WATCH long_world)) init)
     = Ret tt
  /\ history_printed
       (trace (snd (exec long_world
                      (printHistory long_world (WATCH long_world)) init)))
     = history_printed (trace init)
       ++ slice_last 5 (result_or_empty (mkData "1" "OK" (Some six_normal)))
       ++ slice_last 5
            (result_or_empty (mkData "1" "OK" (Some [old_internal]))).
Proof.
  split; [reflexivity|]. split; [reflexivity|].
  apply (C9_history_prints_the_last_five_of_each long_world
           (WATCH long_world) init (mkData "1" "OK" (Some six_normal))
           (mkData "1" "OK" (Some [old_internal])));
    reflexivity.
Defined.

(** C9 as stated fails: in [long_world] the indexer returns six normal
    records (blocks 10 to 15) and an internal record of block 3.  The record
    of block 10 is never printed, and the record of block 3 is printed last,
    after those of blocks 11 to 15. *)
Lemma C9_history_is_cut_and_not_merged :
  fst (exec long_world
         (fetchNormalTxs long_world (WATCH long_world) 0 99999999 10000) init)
  = Ret six_normal
  /\ history_printed (trace (st (run long_world [])))
     = [hist "0xa2" "11"; hist "0xa3" "12"; hist "0xa4" "13";
        hist "0xa5" "14"; hist "0xa6" "15"; old_internal]
  /\ ~ In (hist "0xa1" "10") (history_printed (trace (st (run long_world []))))
  /\ map h_blockNumber (history_printed (trace (st (run long_world []))))
     = ["11"; "12"; "13"; "14"; "15"; "3"].
Proof.
  repeat split; try reflexivity.
  intros H. vm_compute in H.
  repeat (destruct H as [H | H]; [discriminate H|]). exact H.
Qed.

(* ---------------------------------------------------------------------- *)
(** ** The configuration guard *)

Lemma toLowerCase_empty (s : string) : toLowerCase s = "" <-> s = "".
Proof. destruct s; simpl; split; intros H; try discriminate; reflexivity. Qed.

Lemma unset_iff (o : option string) : unset o = true <-> var_missing o.
Proof.
  unfold unset, truthy, var_missing. rewrite negb_involutive, String.eqb_eq.
  destruct o as [a|]; simpl; split.
  - intros ->. now right.
  - intros [H | H]; [discriminate | now injection H].
  - now left.
  - reflexivity.
Qed.

Lemma watch_missing_iff (W : World) :
  negb (truthy (WATCH W)) = true <-> var_missing (ADDRESS (env W)).
Proof.
  unfold truthy, WATCH. rewrite negb_involutive, String.eqb_eq.
  rewrite toLowerCase_empty.
  rewrite <- unset_iff. unfold unset, truthy.
  now rewrite negb_involutive, String.eqb_eq.
Qed.

(** X1: The guard at the top of the module fires exactly when one of the four
    environment variables is not set or is empty. *)
Theorem config_guard_fires_iff_a_variable_is_missing (W : World) :
  config_missing W = true
  <-> var_missing (WS_RPC_SEPOLIA (env W))
      \/ var_missing (HTTP_RPC_SEPOLIA (env W))
      \/ var_missing (ADDRESS (env W))
      \/ var_missing (ETHERSCAN_API_KEY (env W)).
Proof.
  unfold config_missing. rewrite !orb_true_iff.
  rewrite !unset_iff, watch_missing_iff.
  unfold WS_URL, HTTP_URL, ETHERSCAN_KEY. tauto.
Qed.

(** X2: When a variable is missing the script prints the configuration error
    and exits with code 1: no request is sent, no listener is registered and
    nothing delivered later is handled. *)
Theorem missing_configuration_stops_the_script
  (W : World) (sch : list Step) :
  var_missing (WS_RPC_SEPOLIA (env W))
  \/ var_missing (HTTP_RPC_SEPOLIA (env W))
  \/ var_missing (ADDRESS (env W))
  \/ var_missing (ETHERSCAN_API_KEY (env W)) ->
  run W sch
  = mkLoop (mkSt 0 [Print MissingEnv; Exit 1] false false (Some 1%Z)) [].
Proof.
  intros H.
  assert (C : config_missing W = true).
  { unfold config_missing. rewrite !orb_true_iff.
    rewrite !unset_iff, watch_missing_iff.
    unfold WS_URL, HTTP_URL, ETHERSCAN_KEY. tauto. }
  assert (B : st (boot W)
              = mkSt 0 [Print MissingEnv; Exit 1] false false (Some 1%Z)).
  { rewrite st_boot. unfold script. rewrite C. reflexivity. }
  rewrite run_aloop, aloop_exited.
  - unfold loop_of. cbn [fst snd map]. now rewrite B.
  - cbn [fst]. rewrite B. discriminate.
Qed.

(** [unset_world] has no [ADDRESS]. *)
Lemma missing_configuration_stops_the_script_witness :
  var_missing (ADDRESS (env unset_world))
  /\ run unset_world [Deliver (NewBlock 10); Settle 0; Deliver Closed]
     = mkLoop (mkSt 0 [Print MissingEnv; Exit 1] false false (Some 1%Z)) [].
Proof.
  assert (H : var_missing (ADDRESS (env unset_world))) by (left; reflexivity).
  split; [exact H|].
  apply (missing_configuration_stops_the_script unset_world
           [Deliver (NewBlock 10); Settle 0; Deliver Closed]).
  right. right. left. exact H.
Defined.

(* ---------------------------------------------------------------------- *)
(** ** What the listeners keep and what the script sends *)

(** X3: When [getBlock] rejects for a delivered block, [handleBlock] raises
    and the listener catches it: it prints a block error and nothing else
    happens for that block, no Normal event and no internal query; the
    process keeps running with its listeners.  In the event loop, the
    delivery fetches the block and the arrival of the rejection prints the
    error and ends the listener. *)
Theorem block_fetch_failure_is_contained
  (W : World) (bn : Z) (m : string) (s : St) (l : Loop) :
  node W bn = BlockFails m ->
  fst (exec W (handleBlock W bn) s) = Throw m
  /\ exec W (on_block W bn) s
     = (Ret tt, record [GetBlock bn; Print (BlockError m)] s)
  /\ (exited (st l) = None ->
      block_listener (st l) = true ->
      loop W [Deliver (NewBlock bn); Settle (length (pending l))] l
      = mkLoop (record [GetBlock bn; Print (BlockError m)] (st l))
               (pending l)).
Proof.
  intros Hn. split; [|split].
  - now rewrite handleBlock_run, Hn.
  - now rewrite on_block_run, Hn.
  - intros He Hl. unfold loop. simpl fold_left.
    unfold step at 2. rewrite He, Hl.
    unfold advance at 1. rewrite sync_on_block.
    unfold step. simpl st. simpl pending.
    change (exited (record [GetBlock bn] (st l))) with (exited (st l)).
    rewrite He.
    rewrite nth_error_app2, Nat.sub_diag by lia. simpl nth_error.
    unfold advance. simpl st. rewrite sync_after_block, Hn.
    simpl pending. rewrite record_record. f_equal.
    unfold remove_nth.
    rewrite firstn_app, firstn_all, Nat.sub_diag. simpl firstn.
    rewrite skipn_all2 by (rewrite length_app; simpl; lia).
    now rewrite !app_nil_r.
Qed.

(** In [broken_node_world] the node cannot serve block 8; block 9,
    delivered next, is handled as usual. *)
Lemma block_fetch_failure_is_contained_witness :
  node broken_node_world 8 = BlockFails "missing response"
  /\ exec broken_node_world (on_block broken_node_world 8)
          (st (boot broken_node_world))
     = (Ret tt, record [GetBlock 8; Print (BlockError "missing response")]
                       (st (boot broken_node_world)))
  /\ blocks_fetched
       (trace (st (run broken_node_world
                     [Deliver (NewBlock 8); Settle 0; Deliver (NewBlock 9);
                      Settle 0; Settle 0])))
     = [8%Z; 9%Z].
Proof.
  split; [reflexivity|]. split; [|reflexivity].
  apply (block_fetch_failure_is_contained broken_node_world 8
           "missing response" (st (boot broken_node_world))
           (boot broken_node_world)).
  reflexivity.
Defined.

(** X4: Once live monitoring has started, nothing that the event loop goes
    through ends it: after any sequence of deliveries, disconnects and
    replies, with whatever failures of the node and of the indexer and
    whatever records they send, the process has not exited and the block
    listener is still registered. *)
Theorem live_monitoring_never_stops (W : World) (sch : list Step) :
  config_missing W = false ->
  fst (exec W (printHistory W (WATCH W)) init) = Ret tt ->
  exited (st (run W sch)) = None /\ block_listener (st (run W sch)) = true.
Proof.
  intros Hc Hh.
  destruct (script_started W Hc Hh) as (S1 & S2 & _).
  destruct (aloop_fields W sch (st (boot W), [])) as (D1 & D2 & _).
  rewrite st_run, D1, D2. auto.
Qed.

(** In [flaky_world] every live request is rejected, and the socket closes
    in between. *)
Lemma live_monitoring_never_stops_witness :
  config_missing flaky_world = false
  /\ fst (exec flaky_world (printHistory flaky_world (WATCH flaky_world))
            init) = Ret tt
  /\ exited (st (run flaky_world
                   [Deliver (NewBlock 7); Deliver Closed;
                    Deliver (NewBlock 8); Settle 1; Settle 0; Settle 0;
                    Settle 0])) = None
  /\ block_listener (st (run flaky_world
                           [Deliver (NewBlock 7); Deliver Closed;
                            Deliver (NewBlock 8); Settle 1; Settle 0;
                            Settle 0; Settle 0])) = true.
Proof.
  split; [reflexivity|]. split; [reflexivity|].
  apply (live_monitoring_never_stops flaky_world
           [Deliver (NewBlock 7); Deliver Closed; Deliver (NewBlock 8);
            Settle 1; Settle 0; Settle 0; Settle 0]); reflexivity.
Defined.

(** The requests of the history pass: the normal list, or the normal list
    and then the internal list. *)
Lemma printHistory_requests (W : World) (a : string) (s : St) :
  exists l,
    requests (trace (snd (exec W (printHistory W a) s)))
    = requests (trace s) ++ l
    /\ (l = [list_request W txlist a 0 99999999 10000]
        \/ l = [list_request W txlist a 0 99999999 10000;
                list_request W txlistinternal a 0 99999999 10000]).
Proof.
  rewrite printHistory_run. cbv zeta.
  pose proof (requests_console _
                (lines_of_Forall _ (normal_lines W)
                   (slice_last 5
                      (batch (etherscan W (calls s)
                                (list_request W txlist a 0 99999999 10000))))
                   (normal_lines_console W))) as RN.
  pose proof (requests_console _
                (lines_of_Forall _ (internal_lines W)
                   (slice_last 5
                      (batch (etherscan W (S (calls s))
                                (list_request W txlistinternal a
                                   0 99999999 10000))))
                   (internal_lines_console W))) as RI.
  destruct (etherscan W (calls s) _) as [dN|m]; cbn [batch] in RN.
  2:{ eexists. split; [|left; reflexivity]. cbn [snd]. simpl.
      rewrite !requests_app. simpl. now rewrite app_nil_r. }
  destruct (refused dN).
  { eexists. split; [|left; reflexivity]. cbn [snd]. simpl.
    rewrite !requests_app. simpl. now rewrite app_nil_r. }
  destruct (snd (lines_of (normal_lines W)
                   (slice_last 5 (result_or_empty dN)))) as [e|].
  { eexists. split; [|left; reflexivity]. cbn [snd]. simpl.
    rewrite !requests_app, !requests_print_cons, RN. simpl.
    now rewrite !app_nil_r. }
  assert (Q : forall tl, requests tl = [] ->
            requests
              (trace
                 (record tl
                    (sent (list_request W txlistinternal a 0 99999999 10000)
                       (record
                          (Print (FoundNormal (length (result_or_empty dN)))
                           :: fst (lines_of (normal_lines W)
                                     (slice_last 5 (result_or_empty dN)))
                           ++ [Print (FetchingInternal a)])
                          (sent (list_request W txlist a 0 99999999 10000)
                             (record [Print (FetchingNormal a)] s))))))
            = requests (trace s)
              ++ [list_request W txlist a 0 99999999 10000;
                  list_request W txlistinternal a 0 99999999 10000]).
  { intros tl Htl. simpl.
    rewrite !requests_app, !requests_print_cons, !requests_app, RN, Htl.
    simpl. now rewrite !app_nil_r, <- app_assoc. }
  eexists. split; [|right; reflexivity].
  destruct (etherscan W (S (calls s)) _) as [dI|m]; cbn [batch] in RI.
  2:{ cbn [snd]. rewrite <- (Q [] eq_refl). now rewrite record_nil. }
  destruct (refused dI).
  { cbn [snd]. rewrite <- (Q [] eq_refl). now rewrite record_nil. }
  cbn [snd]. apply Q. rewrite requests_print_cons. exact RI.
Qed.

Lemma main_requests (W : World) (s : St) :
  requests (trace (snd (exec W (main W) s)))
  = requests (trace (snd (exec W (printHistory W (WATCH W)) s))).
Proof.
  rewrite main_run.
  destruct (exec W (printHistory W (WATCH W)) s) as [[u|e|] s']; cbn [snd].
  - rewrite liveMonitor_run. simpl. rewrite requests_app.
    destruct (has_websocket W); simpl; now rewrite app_nil_r.
  - simpl. rewrite !requests_app. simpl. now rewrite !app_nil_r.
  - reflexivity.
Qed.

(** The requests of the module body: none, the normal list, or the normal
    list and then the internal list. *)
Lemma boot_requests (W : World) :
  requests (trace (st (boot W))) = []
  \/ requests (trace (st (boot W)))
     = [list_request W txlist (WATCH W) 0 99999999 10000]
  \/ requests (trace (st (boot W)))
     = [list_request W txlist (WATCH W) 0 99999999 10000;
        list_request W txlistinternal (WATCH W) 0 99999999 10000].
Proof.
  rewrite st_boot. unfold script.
  destruct (config_missing W); [left; reflexivity|].
  rewrite main_requests.
  destruct (printHistory_requests W (WATCH W) init) as (l & -> & [-> | ->]);
    auto.
Qed.

(** X5: The requests of a whole run fall in two parts.  The module body
    sends at most the full-range normal list and then the full-range
    internal list; everything sent afterwards, by the live pass, is the
    internal list of one delivered block.  The live pass never asks the
    indexer for normal transactions, and every request is for the lower-cased
    watched address, page 1, ascending, with the configured key. *)
Theorem requests_of_history_and_of_the_live_pass
  (W : World) (sch : list Step) :
  (requests (trace (st (boot W))) = []
   \/ requests (trace (st (boot W)))
      = [list_request W txlist (WATCH W) 0 99999999 10000]
   \/ requests (trace (st (boot W)))
      = [list_request W txlist (WATCH W) 0 99999999 10000;
         list_request W txlistinternal (WATCH W) 0 99999999 10000])
  /\ exists live,
       requests (trace (st (run W sch)))
       = requests (trace (st (boot W))) ++ live
       /\ Forall (fun r => exists bn,
                    In bn (delivered_blocks sch)
                    /\ r = mkRequest txlistinternal (WATCH W) bn bn "1" 1000
                                     "asc" (or_empty (ETHERSCAN_KEY W)))
                 live.
Proof.
  split; [apply boot_requests|].
  rewrite st_run.
  destruct (exited (st (boot W))) as [c|] eqn:He.
  { exists []. rewrite aloop_exited by (cbn [fst]; congruence).
    cbn [fst]. rewrite app_nil_r. split; [reflexivity | constructor]. }
  destruct (block_listener (st (boot W))) eqn:Hl.
  - destruct (aloop_requests W sch (st (boot W), []) He Hl) as (lr & R & P).
    exists lr. split; [exact R|].
    cbn [snd] in P. simpl queries_to_come in P.
    apply Forall_forall. intros r Hr.
    assert (I : In r (map (live_request W)
                        (filter (served W) (delivered_blocks sch)))).
    { eapply Permutation_in; [exact P|]. apply in_or_app. now left. }
    apply in_map_iff in I as (bn & <- & Hbn).
    apply filter_In in Hbn as [Hbn _]. exists bn. split; [exact Hbn|].
    reflexivity.
  - exists []. rewrite app_nil_r. split; [|constructor].
    assert (D : forall sch c,
               exited (fst c) = None -> block_listener (fst c) = false ->
               snd c = [] ->
               requests (trace (fst (aloop W sch c)))
               = requests (trace (fst c))).
    { clear. intros sch. induction sch as [|x sch IH]; intros c He Hl Hp;
        [reflexivity|].
      change (aloop W (x :: sch) c) with (aloop W sch (astep W x c)).
      destruct (astep_fields W x c) as (A1 & A2 & _).
      assert (E : requests (trace (fst (astep W x c)))
                  = requests (trace (fst c)) /\ snd (astep W x c) = []).
      { unfold astep. rewrite He, Hl, Hp.
        destruct x as [[bn|]|i].
        - now rewrite Hp.
        - destruct (close_listener (fst c)); simpl; [|now rewrite Hp].
          rewrite requests_app. simpl. now rewrite app_nil_r.
        - destruct i; simpl; now rewrite Hp. }
      destruct E as (E1 & E2).
      rewrite IH; [exact E1 | congruence | congruence | exact E2]. }
    now apply D.
Qed.

(** X6: Once live monitoring has started, the live pass sends one internal
    query for every delivered block that the node serves, for the range of
    that block alone, and none for a block that the node fails to serve.
    The query of a block goes out when its [getBlock] completes, so the
    queries are sent in the order of completion, which need not be the order
    of delivery: at any moment the queries sent, together with those of the
    listeners still waiting for their block, are the queries of the served
    deliveries, each once; when no listener is waiting any more, the queries
    sent are exactly those. *)
Theorem one_internal_query_per_served_block (W : World) (sch : list Step) :
  config_missing W = false ->
  fst (exec W (printHistory W (WATCH W)) init) = Ret tt ->
  exists (live : list Request) (ws : list Waiting),
    pending (run W sch) = map (listener_of W) ws
    /\ requests (trace (st (run W sch)))
       = requests (trace (st (boot W))) ++ live
    /\ Permutation (live ++ queries_to_come W ws)
         (map (live_request W) (filter (served W) (delivered_blocks sch)))
    /\ (pending (run W sch) = [] ->
        Permutation live
          (map (live_request W) (filter (served W) (delivered_blocks sch)))).
Proof.
  intros Hc Hh.
  destruct (script_started W Hc Hh) as (He & Hl & _).
  destruct (aloop_requests W sch (st (boot W), []) He Hl) as (lr & R & P).
  exists lr, (snd (aloop W sch (st (boot W), []))).
  rewrite pending_run, st_run.
  split; [reflexivity|]. split; [exact R|]. split; [exact P|].
  intros E. apply map_eq_nil in E. rewrite E in P. simpl in P.
  now rewrite app_nil_r in P.
Qed.

(** In [broken_node_world] blocks 7, 8 and 9 are delivered and block 8 is
    not served; the fetch of block 9 completes before that of block 7, and
    the query of block 9 goes out first. *)
Lemma one_internal_query_per_served_block_witness :
  config_missing broken_node_world = false
  /\ fst (exec broken_node_world
            (printHistory broken_node_world (WATCH broken_node_world)) init)
     = Ret tt
  /\ requests
       (trace (st (run broken_node_world
                     [Deliver (NewBlock 7); Deliver (NewBlock 8);
                      Deliver (NewBlock 9); Settle 2; Settle 0; Settle 0;
                      Settle 0; Settle 0])))
     = requests (trace (st (boot broken_node_world)))
       ++ [live_request broken_node_world 9;
           live_request broken_node_world 7]
  /\ exists (live : list Request) (ws : list Waiting),
       pending (run broken_node_world
                  [Deliver (NewBlock 7); Deliver (NewBlock 8);
                   Deliver (NewBlock 9); Settle 2; Settle 0; Settle 0;
                   Settle 0; Settle 0])
       = map (listener_of broken_node_world) ws
       /\ requests
            (trace (st (run broken_node_world
                          [Deliver (NewBlock 7); Deliver (NewBlock 8);
                           Deliver (NewBlock 9); Settle 2; Settle 0;
                           Settle 0; Settle 0; Settle 0])))
          = requests (trace (st (boot broken_node_world))) ++ live
       /\ Permutation (live ++ queries_to_come broken_node_world ws)
            (map (live_request broken_node_world)
               (filter (served broken_node_world)
                  (delivered_blocks
                     [Deliver (NewBlock 7); Deliver (NewBlock 8);
                      Deliver (NewBlock 9); Settle 2; Settle 0; Settle 0;
                      Settle 0; Settle 0])))
       /\ (pending (run broken_node_world
                      [Deliver (NewBlock 7); Deliver (NewBlock 8);
                       Deliver (NewBlock 9); Settle 2; Settle 0; Settle 0;
                       Settle 0; Settle 0]) = [] ->
           Permutation live
             (map (live_request broken_node_world)
                (filter (served broken_node_world)
                   (delivered_blocks
                      [Deliver (NewBlock 7); Deliver (NewBlock 8);
                       Deliver (NewBlock 9); Settle 2; Settle 0; Settle 0;
                       Settle 0; Settle 0])))).
Proof.
  split; [reflexivity|]. split; [reflexivity|]. split; [reflexivity|].
  apply (one_internal_query_per_served_block broken_node_world
           [Deliver (NewBlock 7); Deliver (NewBlock 8); Deliver (NewBlock 9);
            Settle 2; Settle 0; Settle 0; Settle 0; Settle 0]);
    reflexivity.
Defined.

(** X7: The block listener is registered at most once in a run, and it is
    registered exactly when the configuration is complete and the history
    pass has returned without raising. *)
Theorem block_listener_is_registered_once (W : World) (sch : list Step) :
  subscriptions (trace (st (run W sch))) <= 1
  /\ (subscriptions (trace (st (run W sch))) = 1
      <-> config_missing W = false
          /\ fst (exec W (printHistory W (WATCH W)) init) = Ret tt).
Proof.
  rewrite st_run.
  destruct (aloop_fields W sch (st (boot W), [])) as (_ & _ & _ & ->).
  cbn [fst].
  destruct (config_missing W) eqn:Hc.
  - rewrite st_boot. unfold script. rewrite Hc.
    change (subscriptions
              (trace (snd (exec W (print MissingEnv ;; Halt 1) init))))
      with 0.
    split; [lia|].
    split; [discriminate | intros [H _]; discriminate H].
  - destruct (fst (exec W (printHistory W (WATCH W)) init)) as [[]|e|] eqn:Hh.
    + destruct (script_started W Hc Hh) as (_ & _ & _ & _ & _ & S6).
      rewrite S6. split; [lia|]. split; auto.
    + destruct (script_failed W e Hc Hh) as (_ & _ & _ & _ & _ & S6).
      rewrite S6. split; [lia|].
      split; [discriminate | intros [_ H]; discriminate H].
    + now apply printHistory_not_halted in Hh.
Qed.

(* ---------------------------------------------------------------------- *)
(** ** The history pass, count by count *)

Lemma slice_last_all {A} (n : nat) (l : list A) :
  length l <= n -> slice_last n l = l.
Proof.
  intros H. unfold slice_last.
  replace (length l - n) with 0 by lia. reflexivity.
Qed.




(** X9: When the indexer returns at most five normal and at most five internal
    records and none of them raises an error when printed, the history pass
    prints every record returned, the normal ones first, each group in the
    order returned. *)
Theorem short_history_is_printed_in_full
  (W : World) (a : string) (s : St) (dN dI : Data) :
  etherscan W (calls s) (list_request W txlist a 0 99999999 10000)
  = Resolved dN ->
  refused dN = false ->
  etherscan W (S (calls s)) (list_request W txlistinternal a 0 99999999 10000)
  = Resolved dI ->
  refused dI = false ->
  length (result_or_empty dN) <= 5 ->
  length (result_or_empty dI) <= 5 ->
  snd (lines_of (normal_lines W) (result_or_empty dN)) = None ->
  snd (lines_of (internal_lines W) (result_or_empty dI)) = None ->
  fst (exec W (printHistory W a) s) = Ret tt
  /\ history_printed (trace (snd (exec W (printHistory W a) s)))
     = history_printed (trace s) ++ result_or_empty dN ++ result_or_empty dI.
Proof.
  intros HN RN HI RI SN SI LN LI.
  rewrite <- (slice_last_all 5 (result_or_empty dN) SN) in LN.
  rewrite <- (slice_last_all 5 (result_or_empty dI) SI) in LI.
  destruct (printHistory_success W a s dN dI HN RN HI RI LN LI) as (R & ->).
  split; [exact R|].
  rewrite !history_printed_app.
  rewrite (proj1 (shown_normal W _ LN)), (proj1 (shown_internal W _ LI)).
  rewrite !slice_last_all by assumption. reflexivity.
Qed.

(** [internal_world] holds no normal record and two internal ones. *)
Lemma short_history_is_printed_in_full_witness :
  length (result_or_empty
            (mkData "1" "OK" (Some [internal "0xc7" "9"; untyped_internal])))
  <= 5
  /\ snd (lines_of (internal_lines internal_world)
            [internal "0xc7" "9"; untyped_internal]) = None
  /\ history_printed
       (trace (snd (exec internal_world
                      (printHistory internal_world (WATCH internal_world))
                      init)))
     = [internal "0xc7" "9"; untyped_internal].
Proof.
  split; [simpl; lia|]. split; [reflexivity|].
  apply (short_history_is_printed_in_full internal_world
           (WATCH internal_world) init
           (mkData "0" "No transactions found" (Some []))
           (mkData "1" "OK" (Some [internal "0xc7" "9"; untyped_internal])));
    try reflexivity; simpl; lia.
Defined.



(* ---------------------------------------------------------------------- *)
(** ** The live pass in detail *)

Lemma flat_map_single {A B} (g : A -> B) (l : list A) :
  flat_map (fun x => [g x]) l = map g l.
Proof. induction l as [|x l IH]; simpl; [reflexivity | now rewrite IH]. Qed.

Lemma lines_of_no_error (f : HistTx -> list Effect * option string)
  (l : list HistTx) :
  (forall t, errors_printed (fst (f t)) = []) ->
  errors_printed (fst (lines_of f l)) = [].
Proof.
  intros H. induction l as [|t l IH]; simpl; [reflexivity|].
  specialize (H t). destruct (f t) as [es [e|]]; simpl in *; [exact H|].
  destruct (lines_of f l) as [es' e']. simpl in *.
  now rewrite errors_printed_app, H, IH.
Qed.

Lemma live_lines_no_error (t : HistTx) :
  errors_printed (fst (live_lines t)) = [].
Proof. unfold live_lines. now destruct (StringToBigInt (h_value t)). Qed.

Lemma live_lines_events (t : HistTx) :
  snd (live_lines t) = None ->
  internal_events (fst (live_lines t)) = [(t, type_or_call t, trace_id t)].
Proof.
  unfold live_lines. now destruct (StringToBigInt (h_value t)).
Qed.

Lemma type_or_call_nonempty (t : HistTx) : type_or_call t <> "".
Proof.
  unfold type_or_call, truthy. destruct (h_type t) as [ty|]; [|discriminate].
  destruct (ty =? "") eqn:E; simpl; [discriminate|].
  now apply String.eqb_neq in E.
Qed.

(** The error lines of the internal part of one block. *)
Lemma internal_outcome_errors (r : Reply) :
  errors_printed (internal_outcome r)
  = match fetch_error "Etherscan internal error: " r with
    | Some e => [e]
    | None =>
        match snd (lines_of live_lines (batch r)) with
        | Some e => [e]
        | None => []
        end
    end.
Proof.
  destruct r as [d|m]; simpl; [|reflexivity].
  destruct (refused d); [reflexivity|].
  pose proof (lines_of_no_error live_lines (result_or_empty d)
                live_lines_no_error) as N.
  destruct (lines_of live_lines (result_or_empty d)) as [es [e|]];
    simpl in *; rewrite errors_printed_app, N; reflexivity.
Qed.

(** X11: When the node serves a delivered block, the indexer answers its
    internal query with an accepted response and no record of the response
    has a value that [BigInt] refuses, every record of the response is
    printed as an internal event, in the order returned and without the
    five-record cut of the history pass; no error is printed.  The call type
    shown is never empty: it is ["call"] when the record has none. *)
Theorem live_internal_records_are_all_printed
  (W : World) (bn : Z) (b : option Block) (d : Data) (s : St) :
  node W bn = BlockIs b ->
  etherscan W (calls s) (live_request W bn) = Resolved d ->
  refused d = false ->
  snd (lines_of live_lines (result_or_empty d)) = None ->
  fst (exec W (handleBlock W bn) s) = Ret tt
  /\ internal_events (trace (snd (exec W (handleBlock W bn) s)))
     = internal_events (trace s)
       ++ map (fun t => (t, type_or_call t, trace_id t)) (result_or_empty d)
  /\ errors_printed (trace (snd (exec W (handleBlock W bn) s)))
     = errors_printed (trace s)
  /\ (forall t, type_or_call t <> ""
                /\ (h_type t = None -> type_or_call t = "call")).
Proof.
  intros Hn Hr Hd Hl.
  rewrite handleBlock_run, Hn. cbv zeta.
  split; [reflexivity|]. cbn [snd].
  destruct (live_normal_projections W bn (body b))
    as (_ & _ & _ & N4 & N5 & _).
  assert (E : etherscan W
                (calls (record (GetBlock bn :: live_normal W bn (body b)) s))
                (live_request W bn) = Resolved d) by exact Hr.
  change (calls s)
    with (calls (record (GetBlock bn :: live_normal W bn (body b)) s)).
  rewrite E.
  split; [|split].
  - simpl trace. rewrite !internal_events_app.
    change (internal_events (GetBlock bn :: live_normal W bn (body b)))
      with (internal_events (live_normal W bn (body b))).
    rewrite N5. simpl. rewrite Hd.
    assert (I : internal_events (fst (lines_of live_lines (result_or_empty d)))
                = map (fun t => (t, type_or_call t, trace_id t))
                      (result_or_empty d)).
    { unfold internal_events.
      rewrite (lines_of_flat_map _ _
                 (fun t => [(t, type_or_call t, trace_id t)]));
        [apply flat_map_single | | exact Hl].
      intros t Ht. now apply live_lines_events. }
    destruct (lines_of live_lines (result_or_empty d)) as [es err].
    simpl in Hl, I. subst err.
    rewrite !app_nil_r, I. reflexivity.
  - cbn [trace record sent]. rewrite !errors_printed_app.
    change (errors_printed (GetBlock bn :: live_normal W bn (body b)))
      with (errors_printed (live_normal W bn (body b))).
    rewrite N4, internal_outcome_errors. simpl. rewrite Hd.
    cbn [batch]. rewrite Hl. now rewrite !app_nil_r.
  - intros t. split; [apply type_or_call_nonempty|].
    unfold type_or_call. now intros ->.
Qed.

(** In [internal_world] the indexer answers the query of block 9 with two
    records, the second without a call type. *)
Lemma live_internal_records_are_all_printed_witness :
  node internal_world 9 = BlockIs (Some (mkBlock (Some [])))
  /\ refused (mkData "1" "OK" (Some [internal "0xc7" "9"; untyped_internal]))
     = false
  /\ snd (lines_of live_lines [internal "0xc7" "9"; untyped_internal]) = None
  /\ internal_events
       (trace (snd (exec internal_world (handleBlock internal_world 9) init)))
     = [(internal "0xc7" "9", "call", Some "0_1");
        (untyped_internal, "call", None)].
Proof.
  split; [reflexivity|]. split; [reflexivity|]. split; [reflexivity|].
  apply (live_internal_records_are_all_printed internal_world 9
           (Some (mkBlock (Some [])))
           (mkData "1" "OK" (Some [internal "0xc7" "9"; untyped_internal]))
           init);
    reflexivity.
Defined.

Lemma boot_close_listener (W : World) :
  has_websocket W = false -> close_listener (st (boot W)) = false.
Proof.
  intros Hw. rewrite st_boot. unfold script.
  destruct (config_missing W); [reflexivity|].
  rewrite main_run.
  destruct (Quiet_exec W (printHistory W (WATCH W)) init
              (Quiet_printHistory W (WATCH W)))
    as (_ & _ & _ & _ & _ & F & _).
  destruct (exec W (printHistory W (WATCH W)) init) as [[u|e|] s'];
    cbn [snd] in *.
  - rewrite liveMonitor_run. simpl. now rewrite F, Hw.
  - exact F.
  - exact F.
Qed.

(** X12: When the provider exposes no [_websocket], no close listener is
    registered: a disconnect, whenever it comes, changes nothing and prints
    nothing. *)
Theorem disconnect_is_silent_without_websocket
  (W : World) (sch : list Step) :
  has_websocket W = false ->
  close_listener (st (run W sch)) = false
  /\ step W (Deliver Closed) (run W sch) = run W sch.
Proof.
  intros Hw.
  assert (C : close_listener (st (run W sch)) = false).
  { rewrite st_run.
    destruct (aloop_fields W sch (st (boot W), [])) as (_ & _ & -> & _).
    now apply boot_close_listener. }
  split; [exact C|].
  unfold step. rewrite C. now destruct (exited (st (run W sch))).
Qed.

(** [bodiless_world] has no [_websocket], as the providers of the imported
    library. *)
Lemma disconnect_is_silent_without_websocket_witness :
  has_websocket bodiless_world = false
  /\ close_listener
       (st (run bodiless_world [Deliver (NewBlock 7); Settle 0])) = false
  /\ step bodiless_world (Deliver Closed)
       (run bodiless_world [Deliver (NewBlock 7); Settle 0])
     = run bodiless_world [Deliver (NewBlock 7); Settle 0].
Proof.
  split; [reflexivity|].
  apply (disconnect_is_silent_without_websocket bodiless_world
           [Deliver (NewBlock 7); Settle 0]).
  reflexivity.
Defined.

(* ---------------------------------------------------------------------- *)
(** ** The case of the configured address *)

Section AddressCase.

Variables W W' : World.

Hypothesis same_ws : WS_RPC_SEPOLIA (env W) = WS_RPC_SEPOLIA (env W').
Hypothesis same_http : HTTP_RPC_SEPOLIA (env W) = HTTP_RPC_SEPOLIA (env W').
Hypothesis same_key : ETHERSCAN_API_KEY (env W) = ETHERSCAN_API_KEY (env W').
Hypothesis same_address :
  ci_eq (or_empty (ADDRESS (env W))) (or_empty (ADDRESS (env W'))).
Hypothesis same_indexer : etherscan W = etherscan W'.
Hypothesis same_node : node W = node W'.
Hypothesis same_socket : has_websocket W = has_websocket W'.
Hypothesis same_clock : valid_time W = valid_time W'.

Lemma same_WATCH : WATCH W = WATCH W'.
Proof. unfold WATCH. now apply toLowerCase_ci_eq. Qed.

Lemma same_config_missing : config_missing W = config_missing W'.
Proof.
  unfold config_missing, WS_URL, HTTP_URL, ETHERSCAN_KEY.
  now rewrite same_ws, same_http, same_key, same_WATCH.
Qed.

Lemma same_script : script W = script W'.
Proof.
  unfold script, main, printHistory, liveMonitor, fetchNormalTxs,
    fetchInternalTxs, printNormal, printInternal, toISOString, ETHERSCAN_KEY.
  now rewrite same_config_missing, same_WATCH, same_key, same_socket,
    same_clock.
Qed.

Lemma same_on_block (bn : Z) : on_block W bn = on_block W' bn.
Proof.
  unfold on_block, handleBlock, touches_watch, fetchInternalTxs,
    ETHERSCAN_KEY.
  now rewrite same_WATCH, same_key.
Qed.

Lemma same_exec {A} (m : Async A) (s : St) : exec W m s = exec W' m s.
Proof.
  revert s. induction m as [a|e|c|e k IH|r k IH|bn k IH]; intros s; simpl;
    auto.
  - rewrite same_indexer. apply IH.
  - rewrite same_node. apply IH.
Qed.

Lemma same_sync {A} (m : Async A) (s : St) : sync W m s = sync W' m s.
Proof.
  revert s. induction m as [a|e|c|e k IH|r k IH|bn k IH]; intros s; simpl;
    auto.
  - now rewrite same_indexer.
  - now rewrite same_node.
Qed.

Lemma same_step (x : Step) (l : Loop) : step W x l = step W' x l.
Proof.
  unfold step, advance.
  destruct (exited (st l)); [reflexivity|].
  destruct x as [[bn|]|i].
  - now rewrite same_on_block, same_sync.
  - now rewrite same_sync.
  - destruct (nth_error (pending l) i); [|reflexivity].
    now rewrite same_sync.
Qed.

Lemma same_run (sch : list Step) : run W sch = run W' sch.
Proof.
  unfold run, boot. rewrite same_script, same_exec.
  generalize (mkLoop (snd (exec W' (script W') init)) []).
  induction sch as [|x sch IH]; intros l; [reflexivity|].
  change (loop W sch (step W x l) = loop W' sch (step W' x l)).
  now rewrite same_step, IH.
Qed.

End AddressCase.

(** X13: The case in which [ADDRESS] is written does not matter: two
    configurations whose addresses are equal up to case, and which are
    otherwise the same, give the same run on the same indexer, node and
    schedule, down to every request, every line printed and every listener
    still waiting. *)
Theorem address_case_does_not_matter (W W' : World) (sch : list Step) :
  WS_RPC_SEPOLIA (env W) = WS_RPC_SEPOLIA (env W') ->
  HTTP_RPC_SEPOLIA (env W) = HTTP_RPC_SEPOLIA (env W') ->
  ETHERSCAN_API_KEY (env W) = ETHERSCAN_API_KEY (env W') ->
  ci_eq (or_empty (ADDRESS (env W))) (or_empty (ADDRESS (env W'))) ->
  etherscan W = etherscan W' ->
  node W = node W' ->
  has_websocket W = has_websocket W' ->
  valid_time W = valid_time W' ->
  run W sch = run W' sch.
Proof.
  intros H1 H2 H3 H4 H5 H6 H7 H8. now apply same_run.
Qed.

(** [handoff_world] writes the address in upper-case hexadecimal digits,
    [lower_world] in lower case. *)
Lemma address_case_does_not_matter_witness :
  ci_eq (or_empty (ADDRESS (env handoff_world)))
        (or_empty (ADDRESS (env lower_world)))
  /\ ADDRESS (env handoff_world) <> ADDRESS (env lower_world)
  /\ run handoff_world [Deliver (NewBlock 10); Deliver Closed; Settle 0]
     = run lower_world [Deliver (NewBlock 10); Deliver Closed; Settle 0].
Proof.
  assert (H : ci_eq (or_empty (ADDRESS (env handoff_world)))
                    (or_empty (ADDRESS (env lower_world))))
    by (apply toLowerCase_ci_eq; reflexivity).
  split; [exact H|]. split; [discriminate|].
  apply (address_case_does_not_matter handoff_world lower_world
           [Deliver (NewBlock 10); Deliver Closed; Settle 0]
           eq_refl eq_refl eq_refl H eq_refl eq_refl eq_refl eq_refl).
Defined.

(* ---------------------------------------------------------------------- *)
(** ** Error lines *)

Lemma normal_lines_no_error (W : World) (t : HistTx) :
  errors_printed (fst (normal_lines W t)) = [].
Proof.
  unfold normal_lines. destruct (valid_time W (h_timeStamp t));
    [|reflexivity].
  destruct (StringToBigInt (h_value t)); [|reflexivity].
  now destruct (input_prefix t).
Qed.

Lemma internal_lines_no_error (W : World) (t : HistTx) :
  errors_printed (fst (internal_lines W t)) = [].
Proof.
  unfold internal_lines. destruct (valid_time W (h_timeStamp t));
    [|reflexivity].
  now destruct (StringToBigInt (h_value t)).
Qed.

(** The history pass prints no listener error. *)
Lemma printHistory_errors (W : World) (a : string) (s : St) :
  errors_printed (trace (snd (exec W (printHistory W a) s)))
  = errors_printed (trace s).
Proof.
  rewrite printHistory_run. cbv zeta.
  pose proof (lines_of_no_error (normal_lines W)
                (slice_last 5
                   (batch (etherscan W (calls s)
                             (list_request W txlist a 0 99999999 10000))))
                (normal_lines_no_error W)) as RN.
  pose proof (lines_of_no_error (internal_lines W)
                (slice_last 5
                   (batch (etherscan W (S (calls s))
                             (list_request W txlistinternal a
                                0 99999999 10000))))
                (internal_lines_no_error W)) as RI.
  destruct (etherscan W (calls s) _) as [dN|m]; cbn [batch] in RN.
  2:{ cbn [snd]. simpl. rewrite !errors_printed_app. simpl.
      now rewrite !app_nil_r. }
  destruct (refused dN).
  { cbn [snd]. simpl. rewrite !errors_printed_app. simpl.
    now rewrite !app_nil_r. }
  destruct (snd (lines_of (normal_lines W)
                   (slice_last 5 (result_or_empty dN)))) as [e|].
  { cbn [snd]. simpl. rewrite !errors_printed_app. simpl.
    change (errors_printed
              (Print (FoundNormal (length (result_or_empty dN)))
               :: fst (lines_of (normal_lines W)
                         (slice_last 5 (result_or_empty dN)))))
      with (errors_printed
              (fst (lines_of (normal_lines W)
                      (slice_last 5 (result_or_empty dN))))).
    rewrite RN. now rewrite !app_nil_r. }
  assert (Q : forall tl, errors_printed tl = [] ->
            errors_printed
              (trace
                 (record tl
                    (sent (list_request W txlistinternal a 0 99999999 10000)
                       (record
                          (Print (FoundNormal (length (result_or_empty dN)))
                           :: fst (lines_of (normal_lines W)
                                     (slice_last 5 (result_or_empty dN)))
                           ++ [Print (FetchingInternal a)])
                          (sent (list_request W txlist a 0 99999999 10000)
                             (record [Print (FetchingNormal a)] s))))))
            = errors_printed (trace s)).
  { intros tl Htl. simpl.
    rewrite !errors_printed_app, Htl.
    change (errors_printed
              (Print (FoundNormal (length (result_or_empty dN)))
               :: fst (lines_of (normal_lines W)
                         (slice_last 5 (result_or_empty dN)))
               ++ [Print (FetchingInternal a)]))
      with (errors_printed
              (fst (lines_of (normal_lines W)
                      (slice_last 5 (result_or_empty dN)))
               ++ [Print (FetchingInternal a)])).
    rewrite errors_printed_app, RN. simpl. now rewrite !app_nil_r. }
  destruct (etherscan W (S (calls s)) _) as [dI|m]; cbn [batch] in RI.
  2:{ cbn [snd]. etransitivity; [|apply (Q [] eq_refl)]. now rewrite record_nil. }
  destruct (refused dI).
  { cbn [snd]. etransitivity; [|apply (Q [] eq_refl)]. now rewrite record_nil. }
  cbn [snd]. apply Q. exact RI.
Qed.

Lemma boot_errors (W : World) : errors_printed (trace (st (boot W))) = [].
Proof.
  rewrite st_boot. unfold script.
  destruct (config_missing W); [reflexivity|].
  rewrite main_run.
  pose proof (printHistory_errors W (WATCH W) init) as E.
  destruct (exec W (printHistory W (WATCH W)) init) as [[u|e|] s'];
    cbn [snd] in *.
  - rewrite liveMonitor_run. simpl. rewrite errors_printed_app, E.
    now destruct (has_websocket W).
  - simpl. rewrite !errors_printed_app, E. reflexivity.
  - exact E.
Qed.

Lemma internal_outcome_one_error (r : Reply) :
  length (errors_printed (internal_outcome r)) <= 1.
Proof.
  rewrite internal_outcome_errors.
  destruct (fetch_error _ r); [simpl; lia|].
  destruct (snd (lines_of live_lines (batch r))); simpl; lia.
Qed.

(** Every listener in flight can still print one error line, and no more. *)
Lemma aloop_errors (W : World) (sch : list Step) (c : St * list Waiting) :
  length (errors_printed (trace (fst (aloop W sch c))))
  + length (snd (aloop W sch c))
  <= length (errors_printed (trace (fst c))) + length (snd c)
     + length (delivered_blocks sch).
Proof.
  revert c. induction sch as [|x sch IH]; intros c; [simpl; lia|].
  change (aloop W (x :: sch) c) with (aloop W sch (astep W x c)).
  change (delivered_blocks (x :: sch))
    with (match x with
          | Deliver (NewBlock bn) => [bn]
          | _ => []
          end ++ delivered_blocks sch).
  rewrite length_app.
  specialize (IH (astep W x c)).
  assert (S1 : length (errors_printed (trace (fst (astep W x c))))
               + length (snd (astep W x c))
               <= length (errors_printed (trace (fst c))) + length (snd c)
                  + length (match x with
                            | Deliver (NewBlock bn) => [bn]
                            | _ => []
                            end)); [|lia].
  clear IH. unfold astep. destruct (exited (fst c)); [lia|].
  destruct x as [[bn|]|i].
  - destruct (block_listener (fst c)); simpl; [|lia].
    rewrite errors_printed_app, !length_app. simpl. lia.
  - destruct (close_listener (fst c)); simpl; [|lia].
    rewrite errors_printed_app, !length_app. simpl. lia.
  - destruct (nth_error (snd c) i) as [w|] eqn:N; [|simpl; lia].
    pose proof (Permutation_length (remove_nth_perm i (snd c) w N)) as L.
    simpl in L. cbn [fst snd]. rewrite length_app.
    assert (S2 : length (errors_printed (trace (fst (settle W w (fst c)))))
                 + length (snd (settle W w (fst c)))
                 <= length (errors_printed (trace (fst c))) + 1);
      [|simpl; lia].
    destruct w as [bn|reply]; simpl.
    + destruct (node W bn) as [b|m]; simpl.
      * destruct (live_normal_projections W bn (body b))
          as (_ & _ & _ & N4 & _).
        rewrite !errors_printed_app, N4. simpl.
        rewrite !app_nil_r. lia.
      * rewrite errors_printed_app, length_app. simpl. lia.
    + rewrite errors_printed_app, length_app.
      pose proof (internal_outcome_one_error reply). lia.
Qed.

(** X14: A delivered block prints at most one error line.  Its listener,
    taken on its own, prints the message of the rejected block fetch; or
    else the message of the failed internal fetch; or else the message of
    the first internal record whose value [BigInt] refuses, after which the
    remaining records of the block are not printed; and no error line
    otherwise.  Over a whole run, however the listeners overlap, there are
    never more error lines than blocks delivered. *)
Theorem one_error_line_per_failing_block
  (W : World) (bn : Z) (s : St) (sch : list Step) :
  errors_printed (trace (snd (exec W (on_block W bn) s)))
  = errors_printed (trace s)
    ++ match node W bn with
       | BlockFails m => [m]
       | BlockIs _ =>
           match fetch_error "Etherscan internal error: "
                             (etherscan W (calls s) (live_request W bn)) with
           | Some e => [e]
           | None =>
               match snd (lines_of live_lines
                            (batch (etherscan W (calls s)
                                      (live_request W bn)))) with
               | Some e => [e]
               | None => []
               end
           end
       end
  /\ length (errors_printed (trace (st (run W sch))))
     <= length (delivered_blocks sch).
Proof.
  split.
  - rewrite on_block_run.
    destruct (node W bn) as [b|m]; cbv zeta; cbn [snd].
    + destruct (live_normal_projections W bn (body b))
        as (_ & _ & _ & N4 & _).
      simpl trace. rewrite !errors_printed_app.
      change (errors_printed (GetBlock bn :: live_normal W bn (body b)))
        with (errors_printed (live_normal W bn (body b))).
      rewrite N4, internal_outcome_errors. simpl. now rewrite !app_nil_r.
    + simpl trace. now rewrite errors_printed_app.
  - rewrite st_run.
    pose proof (aloop_errors W sch (st (boot W), [])) as L.
    cbn [fst snd] in L. rewrite boot_errors in L.
    cbn [Datatypes.length] in L. lia.
Qed.

(** In [malformed_world] the indexer answers the query of block 9 with three
    records, the second with the value ["abc"]: the first record is printed,
    the second gives the one error line of the block and the third is not
    printed. *)
Lemma one_error_line_per_failing_block_witness :
  errors_printed
    (trace (snd (exec malformed_world (on_block malformed_world 9) init)))
  = ["Cannot convert abc to a BigInt"]
  /\ map (fun x => h_hash (fst (fst x)))
       (internal_events
          (trace (snd (exec malformed_world (on_block malformed_world 9)
                         init))))
     = ["0xc7"].
Proof.
  split; [|reflexivity].
  exact (proj1 (one_error_line_per_failing_block malformed_world 9 init [])).
Defined.

Lemma lines_of_error (f : HistTx -> list Effect * option string)
  (l : list HistTx) (e : string) :
  snd (lines_of f l) = Some e -> exists t, In t l /\ snd (f t) = Some e.
Proof.
  induction l as [|t l IH]; simpl; [discriminate|].
  destruct (f t) as [es [e'|]] eqn:E; simpl.
  - intros H. exists t. rewrite E. auto.
  - destruct (lines_of f l) as [es' e']. simpl in *. intros H.
    destruct (IH H) as (t' & I & S'). exists t'. auto.
Qed.

Lemma normal_lines_error (W : World) (t : HistTx) (e : string) :
  snd (normal_lines W t) = Some e ->
  (valid_time W (h_timeStamp t) = false /\ e = "Invalid time value")
  \/ (StringToBigInt (h_value t) = None /\ e = bigint_message (h_value t)).
Proof.
  unfold normal_lines.
  destruct (valid_time W (h_timeStamp t)).
  - destruct (StringToBigInt (h_value t)); simpl; [discriminate|].
    intros H. injection H as <-. now right.
  - simpl. intros H. injection H as <-. now left.
Qed.

(** X15: A record of the history that cannot be printed ends the run.  When
    the normal list is fetched and one of the last five records has a time
    that is not a valid date or a value that [BigInt] refuses, the error
    raised while printing it leaves [printHistory]; the script reports it as
    fatal and exits with code 1, having sent the one request for the normal
    list: the internal history is never asked for and the block listener is
    never registered. *)
Theorem unprintable_history_record_is_fatal
  (W : World) (dN : Data) (e : string) (sch : list Step) :
  config_missing W = false ->
  etherscan W 0 (list_request W txlist (WATCH W) 0 99999999 10000)
  = Resolved dN ->
  refused dN = false ->
  snd (lines_of (normal_lines W) (slice_last 5 (result_or_empty dN)))
  = Some e ->
  exited (st (run W sch)) = Some 1%Z
  /\ requests (trace (st (run W sch)))
     = [list_request W txlist (WATCH W) 0 99999999 10000]
  /\ (exists tr, trace (st (run W sch)) = tr ++ [Print (Fatal e); Exit 1])
  /\ subscriptions (trace (st (run W sch))) = 0
  /\ (exists t,
        In t (slice_last 5 (result_or_empty dN))
        /\ ((valid_time W (h_timeStamp t) = false
             /\ e = "Invalid time value")
            \/ (StringToBigInt (h_value t) = None
                /\ e = bigint_message (h_value t)))).
Proof.
  intros Hc HN RN LN.
  assert (R : exec W (printHistory W (WATCH W)) init
              = (Throw e,
                 record (Print (FoundNormal (length (result_or_empty dN)))
                         :: fst (lines_of (normal_lines W)
                                   (slice_last 5 (result_or_empty dN))))
                   (sent (list_request W txlist (WATCH W) 0 99999999 10000)
                      (record [Print (FetchingNormal (WATCH W))] init)))).
  { rewrite printHistory_run. cbv zeta.
    change (calls init) with 0. rewrite HN, RN, LN. reflexivity. }
  assert (Hh : fst (exec W (printHistory W (WATCH W)) init) = Throw e)
    by now rewrite R.
  destruct (script_failed W e Hc Hh) as (F1 & _ & _ & F4 & _ & F6).
  rewrite st_run, aloop_exited; [|cbn [fst]; rewrite F1; discriminate].
  cbn [fst].
  split; [exact F1|]. split; [|split; [|split]].
  - rewrite F4, R. cbn [snd]. simpl trace.
    rewrite !requests_app, requests_print_cons.
    unfold requests at 1. cbn [flat_map app]. fold (requests
      (fst (lines_of (normal_lines W) (slice_last 5 (result_or_empty dN))))).
    rewrite (requests_console _
               (lines_of_Forall _ (normal_lines W) _
                  (normal_lines_console W))).
    reflexivity.
  - eexists. exact F4.
  - exact F6.
  - destruct (lines_of_error _ _ _ LN) as (t & I & E).
    exists t. split; [exact I|]. now apply normal_lines_error.
Qed.

(** In [malformed_world] the second of three normal records has the value
    ["1.5"]. *)
Lemma unprintable_history_record_is_fatal_witness :
  config_missing malformed_world = false
  /\ snd (lines_of (normal_lines malformed_world)
            (slice_last 5 [hist "0xa1" "10"; bad_value "0xa2" "11" "1.5";
                           hist "0xa3" "12"]))
     = Some "Cannot convert 1.5 to a BigInt"
  /\ exited (st (run malformed_world [Deliver (NewBlock 12); Settle 0]))
     = Some 1%Z
  /\ requests
       (trace (st (run malformed_world [Deliver (NewBlock 12); Settle 0])))
     = [list_request malformed_world txlist (WATCH malformed_world)
          0 99999999 10000]
  /\ map h_hash
       (history_printed
          (trace (st (run malformed_world
                        [Deliver (NewBlock 12); Settle 0]))))
     = ["0xa1"].
Proof.
  destruct (unprintable_history_record_is_fatal malformed_world
              (mkData "1" "OK"
                 (Some [hist "0xa1" "10"; bad_value "0xa2" "11" "1.5";
                        hist "0xa3" "12"]))
              "Cannot convert 1.5 to a BigInt"
              [Deliver (NewBlock 12); Settle 0]
              eq_refl eq_refl eq_refl eq_refl) as (E & R & _).
  split; [reflexivity|]. split; [reflexivity|].
  split; [exact E|]. split; [exact R | reflexivity].
Defined.
